(** * Spreadsheet-backed authentication backend (gas-backend/Code.gs)

    A shallow embedding of the login / logout / validateSession handlers and
    of the session store they share, followed by the properties of the
    session lifecycle.

    Modelling conventions.
    - A sheet is the list of its rows, row 1 of the sheet at list index 0.
      [getValues] is [getDataRange().getValues()]: the same list, except that
      an empty sheet yields one blank row.
    - Cells and JSON fields are JavaScript values ([value]); [===] is
      [strict_eq] and [a || b] is [js_or].
    - The "User Data" cell holds JSON text; the embedding keeps the value
      [JSON.parse] returns for it ([CellJson]), or [CellNotJson] when
      [JSON.parse] throws on its text. [JSON.stringify(user)] followed by
      [JSON.parse] gives the user back.
    - Date cells hold an ISO string; the embedding keeps the time value in
      milliseconds, [None] standing for text that parses to an invalid date.
    - [Utilities.getUuid()] and [new Date()] are answered by an [oracle]
      record, one field per call site reached by a request; the record
      also carries the text of the exception [JSON.parse] raises. *)

From Stdlib Require Import ZArith String List Bool Lia.
From stdpp Require Import base list pretty.
Import ListNotations.
Open Scope string_scope.

(** ** JavaScript values *)

Inductive value : Type :=
  | VUndef
  | VNull
  | VBool (b : bool)
  | VNum (n : Z)
  | VStr (s : string).

(** [a === b] on primitives. *)
Definition strict_eq (a b : value) : bool :=
  match a, b with
  | VUndef, VUndef => true
  | VNull, VNull => true
  | VBool x, VBool y => Bool.eqb x y
  | VNum x, VNum y => Z.eqb x y
  | VStr x, VStr y => String.eqb x y
  | _, _ => false
  end.

Definition truthy (a : value) : bool :=
  match a with
  | VUndef | VNull => false
  | VBool b => b
  | VNum n => negb (Z.eqb n 0)
  | VStr s => negb (String.eqb s "")
  end.

(** [a || b] *)
Definition js_or (a b : value) : value := if truthy a then a else b.

(** ** Configuration *)

(** Session timeout (24 hours in milliseconds) *)
Definition SESSION_TIMEOUT : Z := 24 * 60 * 60 * 1000.

(** ** Tables *)

(** A row of the Users sheet: Username, Password, Email, Role, User ID,
    Chapter ID (columns 0 to 5). *)
Record urow : Type := mkURow {
  u_username : value;
  u_password : value;
  u_email : value;
  u_role : value;
  u_id : value;
  u_chapterId : value
}.

(** The user object built by [handleLogin]. *)
Record user : Type := mkUser {
  id : value;
  username : value;
  email : value;
  role : value;
  chapterId : value
}.

(** A JSON value as the handlers see it: an object, read through the five
    fields of a user (a field the object lacks is [undefined]), or a
    primitive. It is what [JSON.parse] returns for a "User Data" cell and
    what a response carries under its [user] key. *)
Inductive json : Type :=
  | JObject (u : user)
  | JPrimitive (v : value).

(** A "User Data" cell: text that parses as JSON, or text on which
    [JSON.parse] throws. *)
Inductive userDataCell : Type :=
  | CellJson (j : json)
  | CellNotJson.

(** A row of the Sessions sheet: Session Token, User Data, Created At,
    Expires At (columns 0 to 3). *)
Record srow : Type := mkSRow {
  s_token : value;
  s_userData : userDataCell;
  s_createdAt : option Z;
  s_expiresAt : option Z
}.

Definition usersHeader : urow :=
  mkURow (VStr "Username") (VStr "Password") (VStr "Email") (VStr "Role")
         (VStr "User ID") (VStr "Chapter ID").

Definition sessionsHeader : srow :=
  mkSRow (VStr "Session Token") CellNotJson None None.

Definition blankU : urow :=
  mkURow (VStr "") VUndef VUndef VUndef VUndef VUndef.

Definition blankS : srow := mkSRow (VStr "") CellNotJson None None.

(** The spreadsheet: each sheet is absent ([None]) or a list of rows. *)
Record world : Type := mkWorld {
  usersSheet : option (list urow);
  sessionsSheet : option (list srow)
}.

(** ** Spreadsheet primitives *)

Definition getValues {R : Type} (blank : R) (sh : list R) : list R :=
  match sh with
  | [] => [blank]
  | _ => sh
  end.

Definition appendRow {R : Type} (r : R) (sh : list R) : list R := sh ++ [r].

(** [sheet.deleteRow(k)], rows numbered from 1. The handlers only pass the
    number of an existing row (an index of the snapshot [data] plus one,
    with no row above it deleted since), so the out-of-range case, where
    Apps Script throws and [delete] does nothing, is never reached. *)
Definition deleteRow {R : Type} (k : nat) (sh : list R) : list R :=
  delete (pred k) sh.

(** ** Responses *)

Record response : Type := mkResponse {
  success : bool;
  message : string;
  r_user : option json;
  r_sessionToken : option string
}.

(** The optional third argument of [createResponse]. *)
Record extra : Type := mkExtra {
  x_user : option json;
  x_sessionToken : option string
}.

Definition createResponse (ok : bool) (msg : string) (data : option extra)
  : response :=
  match data with
  | None => mkResponse ok msg None None
  | Some d => mkResponse ok msg (x_user d) (x_sessionToken d)
  end.

(** ** The environment's answers *)

(** One field per call of [Utilities.getUuid()] or [new Date()] that a
    request can reach, in the order of the call sites, and the text of the
    exception [JSON.parse] raises on a cell that is not JSON. *)
Record oracle : Type := mkOracle {
  o_seed1 : string;      (* createUsersSheet: id of 'admin' *)
  o_seed2 : string;      (* createUsersSheet: id of 'chapter1' *)
  o_seed3 : string;      (* createUsersSheet: id of 'editor' *)
  o_tokenUuid : string;  (* generateSessionToken: Utilities.getUuid() *)
  o_tokenTime : Z;       (* generateSessionToken: new Date().getTime() *)
  o_idUuid : string;     (* handleLogin: row[4] || Utilities.getUuid() *)
  o_now : Z;             (* storeSession: new Date() *)
  o_sweepNow : Z;        (* cleanupExpiredSessions: new Date() *)
  o_checkNow : Z;        (* isSessionExpired: new Date() *)
  o_parseError : string  (* handleValidateSession: error.toString() of the
                            exception JSON.parse raises *)
}.

(** ** Helper functions *)

Definition generateSessionToken (o : oracle) : string :=
  o_tokenUuid o ++ "_" ++ pretty (o_tokenTime o).

Definition createUsersSheet (o : oracle) : list urow :=
  let sh := appendRow usersHeader [] in
  let sh := appendRow
    (mkURow (VStr "admin") (VStr "admin123") (VStr "admin@dyesabel.org")
            (VStr "admin") (VStr (o_seed1 o)) (VStr "")) sh in
  let sh := appendRow
    (mkURow (VStr "chapter1") (VStr "chapter123")
            (VStr "chapter1@dyesabel.org") (VStr "chapter_head")
            (VStr (o_seed2 o)) (VStr "quezon-city")) sh in
  appendRow
    (mkURow (VStr "editor") (VStr "editor123") (VStr "editor@dyesabel.org")
            (VStr "editor") (VStr (o_seed3 o)) (VStr "")) sh.

(** ** Session management *)

(** [new Date(cell) < now]; a comparison with an invalid date is false. *)
Definition expiredAt (cell : option Z) (now : Z) : bool :=
  match cell with
  | Some e => Z.ltb e now
  | None => false
  end.

Definition isSessionExpired (session : srow) (now : Z) : bool :=
  expiredAt (s_expiresAt session) now.

(** The loop of [cleanupExpiredSessions]: [i] runs from [data.length - 1]
    down to 1; [data] is the snapshot read before the loop, [sh] the sheet
    the deletions act on. *)
Fixpoint cleanupLoop (data : list srow) (now : Z) (i : nat) (sh : list srow)
  : list srow :=
  match i with
  | O => sh
  | S j =>
      let sh' :=
        match data !! i with
        | Some r => if expiredAt (s_expiresAt r) now
                    then deleteRow (i + 1) sh else sh
        | None => sh
        end in
      cleanupLoop data now j sh'
  end.

Definition cleanupSheet (now : Z) (sh : list srow) : list srow :=
  let data := getValues blankS sh in
  cleanupLoop data now (length data - 1) sh.

Definition cleanupExpiredSessions (now : Z) (w : world) : world :=
  match sessionsSheet w with
  | None => w
  | Some sh => mkWorld (usersSheet w) (Some (cleanupSheet now sh))
  end.

(** The row [storeSession] appends. *)
Definition newSessionRow (sessionToken : string) (u : user) (now : Z) : srow :=
  mkSRow (VStr sessionToken) (CellJson (JObject u)) (Some now)
         (Some (now + SESSION_TIMEOUT)%Z).

(** [storeSession] up to and including its [appendRow]. *)
Definition storeSessionAppend (o : oracle) (sessionToken : string) (u : user)
    (w : world) : world :=
  let sh :=
    match sessionsSheet w with
    | Some sh => sh
    | None => appendRow sessionsHeader []
    end in
  mkWorld (usersSheet w)
          (Some (appendRow (newSessionRow sessionToken u (o_now o)) sh)).

Definition storeSession (o : oracle) (sessionToken : string) (u : user)
    (w : world) : world :=
  cleanupExpiredSessions (o_sweepNow o) (storeSessionAppend o sessionToken u w).

(** The loop of [getSession] over [data[1..]]. *)
Fixpoint getSessionLoop (sessionToken : value) (rows : list srow)
  : option srow :=
  match rows with
  | [] => None
  | r :: rest =>
      if strict_eq (s_token r) sessionToken then Some r
      else getSessionLoop sessionToken rest
  end.

Definition getSession (sessionToken : value) (w : world) : option srow :=
  match sessionsSheet w with
  | None => None
  | Some sh => getSessionLoop sessionToken (drop 1 (getValues blankS sh))
  end.

(** ** Authentication handlers *)

(** The user object of [handleLogin] for a matching [row]. *)
Definition userOfRow (o : oracle) (row : urow) : user :=
  mkUser (js_or (u_id row) (VStr (o_idUuid o)))
         (u_username row)
         (u_email row)
         (u_role row)
         (js_or (u_chapterId row) VNull).

(** The loop of [handleLogin] over [data[1..]], with the fall-through
    [return] after it. *)
Fixpoint loginLoop (o : oracle) (w : world) (usr pwd : value)
    (rows : list urow) : response * world :=
  match rows with
  | [] => (createResponse false "Invalid username or password" None, w)
  | row :: rest =>
      if strict_eq (u_username row) usr && strict_eq (u_password row) pwd
      then
        let sessionToken := generateSessionToken o in
        let u := userOfRow o row in
        let w' := storeSession o sessionToken u w in
        (createResponse true "Login successful"
           (Some (mkExtra (Some (JObject u)) (Some sessionToken))), w')
      else loginLoop o w usr pwd rest
  end.

Definition handleLogin (o : oracle) (usr pwd : value) (w : world)
  : response * world :=
  let '(sh, w1) :=
    match usersSheet w with
    | Some sh => (sh, w)
    | None =>
        let sh := createUsersSheet o in
        (sh, mkWorld (Some sh) (sessionsSheet w))
    end in
  loginLoop o w1 usr pwd (drop 1 (getValues blankU sh)).

(** The loop of [handleLogout]: [rows] is [data[i..]]. *)
Fixpoint logoutLoop (sessionToken : value) (rows : list srow) (i : nat)
    (sh : list srow) : list srow :=
  match rows with
  | [] => sh
  | r :: rest =>
      if strict_eq (s_token r) sessionToken
      then deleteRow (i + 1) sh
      else logoutLoop sessionToken rest (S i) sh
  end.

Definition logoutSheet (sessionToken : value) (sh : list srow) : list srow :=
  logoutLoop sessionToken (drop 1 (getValues blankS sh)) 1 sh.

Definition handleLogout (sessionToken : value) (w : world)
  : response * world :=
  let w' :=
    match sessionsSheet w with
    | Some sh => mkWorld (usersSheet w) (Some (logoutSheet sessionToken sh))
    | None => w
    end in
  (createResponse true "Logged out successfully" None, w').

Definition handleValidateSession (o : oracle) (sessionToken : value)
    (w : world) : response * world :=
  match getSession sessionToken w with
  | Some session =>
      if negb (isSessionExpired session (o_checkNow o))
      then
        match s_userData session with
        | CellJson j =>
            (createResponse true "Session valid"
               (Some (mkExtra (Some j) None)), w)
        | CellNotJson =>
            (createResponse false ("Validation error: " ++ o_parseError o)
               None, w)
        end
      else (createResponse false "Invalid or expired session" None, w)
  | None => (createResponse false "Invalid or expired session" None, w)
  end.

(** ** Main handler *)

(** The parsed request body [data]. *)
Record request : Type := mkRequest {
  q_action : value;
  q_username : value;
  q_password : value;
  q_sessionToken : value
}.

(** [e.postData.contents] after [JSON.parse]: either the statement throws
    (no body, malformed JSON, or [null], whose [action] cannot be read),
    or [data] is available. *)
Inductive postBody : Type :=
  | Throws (error : string)
  | Parsed (data : request).

Definition doPost (o : oracle) (e : postBody) (w : world)
  : response * world :=
  match e with
  | Throws error => (createResponse false ("Server error: " ++ error) None, w)
  | Parsed data =>
      if strict_eq (q_action data) (VStr "login")
      then handleLogin o (q_username data) (q_password data) w
      else if strict_eq (q_action data) (VStr "logout")
      then handleLogout (q_sessionToken data) w
      else if strict_eq (q_action data) (VStr "validateSession")
      then handleValidateSession o (q_sessionToken data) w
      else (createResponse false "Invalid action" None, w)
  end.

(** ** Admin functions (run from the Script Editor) *)

(** The string a value contributes to ['text' + value]. An integer of
    magnitude below 1e21 is printed in decimal; from 1e21 on JavaScript
    prints the exponent form, which is not modelled digit by digit:
    [expForm] stands for it. *)
Definition toStr (expForm : Z → string) (v : value) : string :=
  match v with
  | VUndef => "undefined"
  | VNull => "null"
  | VBool true => "true"
  | VBool false => "false"
  | VNum n => if (Z.abs n <? 10 ^ 21)%Z then pretty n else expForm n
  | VStr s => s
  end.

(** A parameter declared [chapterId = '']: the default replaces
    [undefined] only. *)
Definition defaultChapterId (chapterId : value) : value :=
  match chapterId with
  | VUndef => VStr ""
  | v => v
  end.

(** [addUser]; [userId] is the answer of its [Utilities.getUuid()]. The
    result is the spreadsheet and the lines written to [Logger]. *)
Definition addUser (expForm : Z → string) (userId : string)
    (usr pwd mail rol chapter : value) (w : world) : world * list string :=
  match usersSheet w with
  | None =>
      (w, ["Users sheet not found. Please initialize the system first."])
  | Some sh =>
      (mkWorld
         (Some (appendRow
                  (mkURow usr pwd mail rol (VStr userId)
                          (defaultChapterId chapter)) sh))
         (sessionsSheet w),
       ["User added successfully: " ++ toStr expForm usr])
  end.

Definition initializeSystem (o : oracle) (w : world) : world * list string :=
  let '(us, line1) :=
    match usersSheet w with
    | None => (createUsersSheet o, "Users sheet created with default users")
    | Some sh => (sh, "Users sheet already exists")
    end in
  let '(ss, line2) :=
    match sessionsSheet w with
    | None => (appendRow sessionsHeader [], "Sessions sheet created")
    | Some sh => (sh, "Sessions sheet already exists")
    end in
  (mkWorld (Some us) (Some ss),
   [line1; line2; "System initialization complete!"]).

(** The loop of [listUsers] over [data[1..]]: one logged line per row. *)
Fixpoint listUsersLoop (expForm : Z → string) (rows : list urow)
  : list string :=
  match rows with
  | [] => []
  | row :: rest =>
      ("- " ++ toStr expForm (u_username row) ++ " (" ++
       toStr expForm (u_role row) ++ ")")
      :: listUsersLoop expForm rest
  end.

(** [listUsers]: the lines written to [Logger]. *)
Definition listUsers (expForm : Z → string) (w : world) : list string :=
  match usersSheet w with
  | None => ["Users sheet not found"]
  | Some sh =>
      "Users:" :: listUsersLoop expForm (drop 1 (getValues blankU sh))
  end.

(** ** Concrete states used in the examples *)

Definition o0 : oracle :=
  mkOracle "u1" "u2" "u3" "tok" 1000 "fresh" 1000 1001 1002
             "SyntaxError: Unexpected end of JSON input".

Definition alice : user :=
  mkUser (VStr "id-a") (VStr "alice") (VStr "a@x.org") (VStr "editor") VNull.

Definition aliceRow : urow :=
  mkURow (VStr "alice") (VStr "pw") (VStr "a@x.org") (VStr "editor")
         (VStr "id-a") (VStr "").

Definition w0 : world :=
  mkWorld (Some [usersHeader; aliceRow]) (Some [sessionsHeader]).

(** * Vocabulary of the properties *)

Open Scope list_scope.

(** A session row survives a sweep run at [now]. *)
Definition survives (now : Z) (r : srow) : Prop :=
  isSessionExpired r now = false.

#[global] Instance survives_dec now r : Decision (survives now r).
Proof. unfold survives. solve_decision. Defined.

(** Remove the first row whose token cell is [sessionToken]. *)
Fixpoint removeFirst (sessionToken : value) (rows : list srow) : list srow :=
  match rows with
  | [] => []
  | r :: rest =>
      if strict_eq (s_token r) sessionToken then rest
      else r :: removeFirst sessionToken rest
  end.

(** The first row matching both credentials. *)
Fixpoint firstMatch (usr pwd : value) (rows : list urow) : option urow :=
  match rows with
  | [] => None
  | row :: rest =>
      if strict_eq (u_username row) usr && strict_eq (u_password row) pwd
      then Some row
      else firstMatch usr pwd rest
  end.

(** The users sheet [handleLogin] reads: the stored one, or the one it
    creates. *)
Definition usersOf (o : oracle) (w : world) : list urow :=
  match usersSheet w with
  | Some sh => sh
  | None => createUsersSheet o
  end.

(** The data rows of a sheet, below its first row. *)
Definition dataRows {R : Type} (blank : R) (sh : list R) : list R :=
  drop 1 (getValues blank sh).

Definition credentialsMatch (usr pwd : value) (row : urow) : Prop :=
  u_username row = usr ∧ u_password row = pwd.

(** The world [handleLogin] works on once the users sheet exists. *)
Definition withUsers (o : oracle) (w : world) : world :=
  mkWorld (Some (usersOf o w)) (sessionsSheet w).

(** "The user object's fields match the stored row", read literally:
    every field of the response's user equals the cell it comes from. *)
Definition matchesRow (u : user) (row : urow) : Prop :=
  id u = u_id row ∧ username u = u_username row ∧ email u = u_email row ∧
  role u = u_role row ∧ chapterId u = u_chapterId row.

(** No data row carries the username. *)
Definition unknownUsername (usr : value) (rows : list urow) : Prop :=
  ∀ r, r ∈ rows → u_username r ≠ usr.

(** Some data row carries the username, and none of those carries the
    password. *)
Definition wrongPassword (usr pwd : value) (rows : list urow) : Prop :=
  (∃ r, r ∈ rows ∧ u_username r = usr) ∧
  ∀ r, r ∈ rows → u_username r = usr → u_password r ≠ pwd.

(** A Sessions sheet holding one session that expired long ago. *)
Definition staleRow : srow :=
  mkSRow (VStr "old_1") (CellJson (JObject alice)) (Some 0%Z) (Some 5%Z).

Definition wStale : world :=
  mkWorld (Some [usersHeader; aliceRow]) (Some [sessionsHeader; staleRow]).

(** The session rows [getSession] scans. *)
Definition sessionRows (w : world) : list srow :=
  match sessionsSheet w with
  | None => []
  | Some sh => dataRows blankS sh
  end.

(** A world with one live session, as a login at time 1000 leaves it. *)
Definition liveRow : srow := newSessionRow "tok_1000" alice 1000.

Definition wLive : world :=
  mkWorld (Some [usersHeader; aliceRow]) (Some [sessionsHeader; liveRow]).

(** The Sessions sheet [storeSession] appends to: the stored one, or the
    one it creates with its header row. *)
Definition baseSheet (w : world) : list srow :=
  match sessionsSheet w with
  | Some sh => sh
  | None => [sessionsHeader]
  end.

#[global] Instance value_eq_dec : EqDecision value.
Proof. solve_decision. Defined.

(** Number of rows carrying the token. *)
Definition tokenCount (tok : value) (rows : list srow) : nat :=
  length (filter (λ s, s_token s = tok) rows).

(** A Sessions sheet in which two rows carry the same token. *)
Definition wDup : world :=
  mkWorld (Some [usersHeader; aliceRow])
          (Some [sessionsHeader; liveRow; liveRow]).

(** The first login on a blank spreadsheet, as in the specification's
    examples. *)
Definition oAdmin : oracle :=
  mkOracle "id-1" "id-2" "id-3" "uuid" 50 "fresh" 50 51 60 "".

Definition afterAdminLogin : world :=
  snd (handleLogin oAdmin (VStr "admin") (VStr "admin123") (mkWorld None None)).

(** A Sessions sheet with the stale session above the live one. *)
Definition wBoth : world :=
  mkWorld (Some [usersHeader; aliceRow])
          (Some [sessionsHeader; staleRow; liveRow]).

(** A session row that has not expired at time 1002 and whose User Data
    cell is not JSON. *)
Definition garbledRow : srow :=
  mkSRow (VStr "t_1") CellNotJson (Some 0%Z) (Some 5000%Z).

Definition wGarbled : world :=
  mkWorld (Some [usersHeader; aliceRow]) (Some [sessionsHeader; garbledRow]).

(** A Sessions sheet that exists and has no row at all. *)
Definition wNoHeader : world :=
  mkWorld (Some [usersHeader; aliceRow]) (Some []).

Definition bob : user :=
  mkUser (VStr "id-b") (VStr "bob") (VStr "b@x.org") (VStr "admin") VNull.

(** A Sessions sheet in which a row of another user already carries the
    token the next login generates under [o0]. *)
Definition wCollision : world :=
  mkWorld (Some [usersHeader; aliceRow])
          (Some [sessionsHeader;
                 mkSRow (VStr "tok_1000") (CellJson (JObject bob))
                        (Some 0%Z) (Some 90000000%Z)]).

(** * Properties *)

(** ** Reference functions on lists of rows *)

(** ** Spreadsheet primitives *)

Lemma dataRows_cons {R : Type} (blank h : R) (t : list R) :
  dataRows blank (h :: t) = t.
Proof. reflexivity. Qed.

Lemma dataRows_nil {R : Type} (blank : R) : dataRows blank [] = [].
Proof. reflexivity. Qed.

Lemma deleteRow_middle {R : Type} (pre : list R) (r : R) (post : list R) :
  deleteRow (length pre + 1) (pre ++ r :: post) = pre ++ post.
Proof.
  unfold deleteRow. replace (pred (length pre + 1)) with (length pre) by lia.
  induction pre as [|x pre IH]; simpl; [reflexivity | now rewrite IH].
Qed.

Lemma snoc_view {R : Type} (l : list R) (n : nat) :
  length l = S n → ∃ l' r, l = l' ++ [r] ∧ length l' = n.
Proof.
  destruct l as [|x l] using rev_ind; simpl; intros H; [discriminate|].
  rewrite length_app in H. simpl in H. exists l, x. split; [reflexivity | lia].
Qed.

(** ** The cleanup sweep computes a filter *)

Lemma cleanupLoop_spec (now : Z) (i : nat) :
  ∀ (pre post kept : list srow),
    length pre = S i →
    cleanupLoop (pre ++ post) now i (pre ++ kept)
    = take 1 pre ++ filter (survives now) (drop 1 pre) ++ kept.
Proof.
  induction i as [|j IH]; intros pre post kept Hlen.
  - destruct pre as [|h [|? ?]]; simpl in Hlen; try discriminate.
    reflexivity.
  - destruct (snoc_view pre (S j) Hlen) as (pre' & r & -> & Hlen').
    cbn [cleanupLoop].
    assert (Hlook : (((pre' ++ [r]) ++ post) !! S j) = Some r).
    { rewrite <- app_assoc. rewrite <- Hlen'. apply list_lookup_middle.
      reflexivity. }
    rewrite Hlook.
    assert (Hdrop : drop 1 (pre' ++ [r]) = drop 1 pre' ++ [r]).
    { destruct pre'; [discriminate | reflexivity]. }
    assert (Htake : take 1 (pre' ++ [r]) = take 1 pre').
    { destruct pre'; [discriminate | reflexivity]. }
    rewrite Hdrop, Htake, filter_app.
    rewrite <- !(app_assoc pre' [r]). cbn [app].
    destruct (expiredAt (s_expiresAt r) now) eqn:Hexp.
    + replace (S j + 1) with (length pre' + 1) by lia.
      rewrite deleteRow_middle.
      rewrite (IH pre' (r :: post) kept Hlen').
      rewrite filter_cons_False, filter_nil, app_nil_r; [reflexivity|].
      unfold survives, isSessionExpired. rewrite Hexp. discriminate.
    + rewrite (IH pre' (r :: post) (r :: kept) Hlen').
      rewrite filter_cons_True, filter_nil; [|exact Hexp].
      rewrite <- app_assoc. reflexivity.
Qed.

Lemma cleanupSheet_spec (now : Z) (h : srow) (t : list srow) :
  cleanupSheet now (h :: t) = h :: filter (survives now) t.
Proof.
  unfold cleanupSheet. cbn [getValues].
  pose proof (cleanupLoop_spec now (length t) (h :: t) [] []) as H.
  rewrite !app_nil_r in H.
  replace (length (h :: t) - 1) with (length t) by (simpl; lia).
  rewrite H; [reflexivity | reflexivity].
Qed.

Lemma cleanupSheet_nil (now : Z) : cleanupSheet now [] = [].
Proof. reflexivity. Qed.

(** ** Logout removes the first matching data row *)

Lemma logoutLoop_spec (tok : value) (rows : list srow) :
  ∀ (pre : list srow),
    logoutLoop tok rows (length pre) (pre ++ rows)
    = pre ++ removeFirst tok rows.
Proof.
  induction rows as [|r rest IH]; intros pre; simpl; [reflexivity|].
  destruct (strict_eq (s_token r) tok).
  - apply deleteRow_middle.
  - replace (pre ++ r :: rest) with ((pre ++ [r]) ++ rest)
      by (rewrite <- app_assoc; reflexivity).
    replace (S (length pre)) with (length (pre ++ [r]))
      by (rewrite length_app; simpl; lia).
    rewrite IH, <- app_assoc. reflexivity.
Qed.

Lemma logoutSheet_spec (tok : value) (h : srow) (t : list srow) :
  logoutSheet tok (h :: t) = h :: removeFirst tok t.
Proof.
  unfold logoutSheet. cbn [getValues drop].
  apply (logoutLoop_spec tok t [h]).
Qed.

Lemma logoutSheet_nil (tok : value) : logoutSheet tok [] = [].
Proof. reflexivity. Qed.

(** ** Strict equality *)

Lemma strict_eq_true (a b : value) : strict_eq a b = true ↔ a = b.
Proof.
  destruct a, b; simpl;
    rewrite ?Bool.eqb_true_iff, ?Z.eqb_eq, ?String.eqb_eq;
    split; congruence.
Qed.

Lemma strict_eq_false (a b : value) : strict_eq a b = false ↔ a ≠ b.
Proof.
  rewrite <- strict_eq_true. destruct (strict_eq a b); split; congruence.
Qed.

(** ** Login *)

Lemma credentials_test (usr pwd : value) (row : urow) :
  strict_eq (u_username row) usr && strict_eq (u_password row) pwd = true
  ↔ credentialsMatch usr pwd row.
Proof.
  unfold credentialsMatch. rewrite andb_true_iff, !strict_eq_true. tauto.
Qed.

Lemma firstMatch_split (usr pwd : value) (pre : list urow) (row : urow)
    (post : list urow) :
  (∀ r, r ∈ pre → ¬ credentialsMatch usr pwd r) →
  credentialsMatch usr pwd row →
  firstMatch usr pwd (pre ++ row :: post) = Some row.
Proof.
  intros Hpre Hrow. induction pre as [|x pre IH]; simpl.
  - apply credentials_test in Hrow. rewrite Hrow. reflexivity.
  - destruct (strict_eq (u_username x) usr && strict_eq (u_password x) pwd)
      eqn:Hx.
    + apply credentials_test in Hx. exfalso. apply (Hpre x); [left | exact Hx].
    + apply IH. intros r Hr. apply Hpre. right. exact Hr.
Qed.

Lemma firstMatch_none (usr pwd : value) (rows : list urow) :
  firstMatch usr pwd rows = None
  ↔ ∀ r, r ∈ rows → ¬ credentialsMatch usr pwd r.
Proof.
  induction rows as [|x rows IH]; simpl.
  - split; [intros _ r Hr; inversion Hr | reflexivity].
  - destruct (strict_eq (u_username x) usr && strict_eq (u_password x) pwd)
      eqn:Hx.
    + split; [discriminate|]. intros H. exfalso.
      apply (H x); [left | apply credentials_test; exact Hx].
    + rewrite IH. split.
      * intros H r Hr. apply elem_of_cons in Hr as [-> | Hr]; [|auto].
        rewrite <- credentials_test, Hx. discriminate.
      * intros H r Hr. apply H. right. exact Hr.
Qed.

Lemma loginLoop_firstMatch (o : oracle) (w : world) (usr pwd : value)
    (rows : list urow) :
  loginLoop o w usr pwd rows =
  match firstMatch usr pwd rows with
  | Some row =>
      (createResponse true "Login successful"
         (Some (mkExtra (Some (JObject (userOfRow o row)))
                        (Some (generateSessionToken o)))),
       storeSession o (generateSessionToken o) (userOfRow o row) w)
  | None => (createResponse false "Invalid username or password" None, w)
  end.
Proof.
  induction rows as [|x rows IH]; simpl; [reflexivity|].
  destruct (strict_eq (u_username x) usr && strict_eq (u_password x) pwd);
    [reflexivity | exact IH].
Qed.

Lemma handleLogin_unfold (o : oracle) (usr pwd : value) (w : world) :
  handleLogin o usr pwd w =
  loginLoop o (match usersSheet w with Some _ => w | None => withUsers o w end)
            usr pwd (dataRows blankU (usersOf o w)).
Proof.
  unfold handleLogin, withUsers, usersOf, dataRows.
  destruct (usersSheet w); reflexivity.
Qed.

Lemma generateSessionToken_nonempty (o : oracle) :
  generateSessionToken o ≠ ""%string.
Proof.
  unfold generateSessionToken. destruct (o_tokenUuid o); discriminate.
Qed.

(** C1 (amended). The first data row whose username and password cells both
    equal the request's wins: login answers success=true with a non-empty
    session token and a user whose username, email and role are that row's
    cells; id and chapterId are the row's cells when those are truthy,
    otherwise id is a freshly generated UUID and chapterId is null. *)
Theorem login_first_match_wins (o : oracle) (usr pwd : value) (w : world)
    (pre : list urow) (row : urow) (post : list urow) :
  dataRows blankU (usersOf o w) = pre ++ row :: post →
  (∀ r, r ∈ pre → ¬ credentialsMatch usr pwd r) →
  credentialsMatch usr pwd row →
  success (fst (handleLogin o usr pwd w)) = true ∧
  (∃ tok, r_sessionToken (fst (handleLogin o usr pwd w)) = Some tok ∧
          tok ≠ ""%string) ∧
  ∃ u, r_user (fst (handleLogin o usr pwd w)) = Some (JObject u) ∧
       username u = u_username row ∧
       email u = u_email row ∧
       role u = u_role row ∧
       id u = (if truthy (u_id row) then u_id row else VStr (o_idUuid o)) ∧
       chapterId u =
         (if truthy (u_chapterId row) then u_chapterId row else VNull).
Proof.
  intros Hrows Hpre Hrow.
  rewrite handleLogin_unfold, loginLoop_firstMatch, Hrows.
  rewrite (firstMatch_split usr pwd pre row post Hpre Hrow). simpl.
  split; [reflexivity|]. split.
  - exists (generateSessionToken o). split; [reflexivity|].
    apply generateSessionToken_nonempty.
  - exists (userOfRow o row). repeat split; reflexivity.
Qed.

Lemma login_first_match_wins_witness :
  success (fst (handleLogin o0 (VStr "alice") (VStr "pw") w0)) = true ∧
  (∃ tok, r_sessionToken (fst (handleLogin o0 (VStr "alice") (VStr "pw") w0))
          = Some tok ∧ tok ≠ ""%string) ∧
  ∃ u, r_user (fst (handleLogin o0 (VStr "alice") (VStr "pw") w0))
       = Some (JObject u) ∧
       username u = u_username aliceRow ∧
       email u = u_email aliceRow ∧
       role u = u_role aliceRow ∧
       id u = (if truthy (u_id aliceRow) then u_id aliceRow
               else VStr (o_idUuid o0)) ∧
       chapterId u =
         (if truthy (u_chapterId aliceRow) then u_chapterId aliceRow
          else VNull).
Proof.
  apply (login_first_match_wins o0 (VStr "alice") (VStr "pw") w0
           [] aliceRow []).
  - reflexivity.
  - intros r Hr. inversion Hr.
  - split; reflexivity.
Defined.

(** C1 as stated fails: logging in as the seeded 'admin', whose Chapter ID
    cell is the empty string, returns a user whose chapterId is null. *)
Lemma login_fields_counterexample :
  ¬ (∀ (o : oracle) (usr pwd : value) (w : world)
       (pre : list urow) (row : urow) (post : list urow),
       dataRows blankU (usersOf o w) = pre ++ row :: post →
       (∀ r, r ∈ pre → ¬ credentialsMatch usr pwd r) →
       credentialsMatch usr pwd row →
       ∃ u, r_user (fst (handleLogin o usr pwd w)) = Some (JObject u) ∧
            matchesRow u row).
Proof.
  intros H.
  destruct (H o0 (VStr "admin") (VStr "admin123") (mkWorld None None) []
              (mkURow (VStr "admin") (VStr "admin123")
                      (VStr "admin@dyesabel.org") (VStr "admin")
                      (VStr "u1") (VStr ""))
              (drop 1 (dataRows blankU (createUsersSheet o0))))
    as (u & Hu & Hm).
  - reflexivity.
  - intros r Hr. inversion Hr.
  - split; reflexivity.
  - vm_compute in Hu. injection Hu as <-.
    destruct Hm as (_ & _ & _ & _ & Hc). discriminate Hc.
Qed.

Lemma handleLogin_no_match (o : oracle) (usr pwd : value) (w : world) :
  (∀ r, r ∈ dataRows blankU (usersOf o w) → ¬ credentialsMatch usr pwd r) →
  handleLogin o usr pwd w =
  (createResponse false "Invalid username or password" None,
   match usersSheet w with Some _ => w | None => withUsers o w end).
Proof.
  intros H. apply firstMatch_none in H.
  rewrite handleLogin_unfold, loginLoop_firstMatch, H. reflexivity.
Qed.

(** C6. A login that fails because the username is unknown and a login
    that fails because the password is wrong return the same response,
    whose message is the generic 'Invalid username or password'. *)
Theorem login_failures_indistinguishable
    (o1 o2 : oracle) (usr1 pwd1 usr2 pwd2 : value) (w1 w2 : world) :
  unknownUsername usr1 (dataRows blankU (usersOf o1 w1)) →
  wrongPassword usr2 pwd2 (dataRows blankU (usersOf o2 w2)) →
  fst (handleLogin o1 usr1 pwd1 w1) = fst (handleLogin o2 usr2 pwd2 w2) ∧
  success (fst (handleLogin o1 usr1 pwd1 w1)) = false ∧
  message (fst (handleLogin o1 usr1 pwd1 w1))
    = "Invalid username or password"%string.
Proof.
  intros Hunk [_ Hwrong].
  rewrite (handleLogin_no_match o1 usr1 pwd1 w1).
  - rewrite (handleLogin_no_match o2 usr2 pwd2 w2); [repeat split|].
    intros r Hr [Hu Hp]. exact (Hwrong r Hr Hu Hp).
  - intros r Hr [Hu _]. exact (Hunk r Hr Hu).
Qed.

Lemma login_failures_indistinguishable_witness :
  fst (handleLogin o0 (VStr "bob") (VStr "pw") w0)
  = fst (handleLogin o0 (VStr "alice") (VStr "PW") w0) ∧
  success (fst (handleLogin o0 (VStr "bob") (VStr "pw") w0)) = false ∧
  message (fst (handleLogin o0 (VStr "bob") (VStr "pw") w0))
    = "Invalid username or password"%string.
Proof.
  apply login_failures_indistinguishable.
  - intros r Hr. apply list_elem_of_singleton in Hr as ->. discriminate.
  - split.
    + exists aliceRow. split; [left | reflexivity].
    + intros r Hr _. apply list_elem_of_singleton in Hr as ->. discriminate.
Defined.

(** C9. A login that matches no row answers success=false and leaves the
    Sessions sheet exactly as it was: nothing is appended and no row,
    expired or not, is swept. *)
Theorem failed_login_keeps_sessions (o : oracle) (usr pwd : value)
    (w : world) :
  (∀ r, r ∈ dataRows blankU (usersOf o w) → ¬ credentialsMatch usr pwd r) →
  success (fst (handleLogin o usr pwd w)) = false ∧
  sessionsSheet (snd (handleLogin o usr pwd w)) = sessionsSheet w.
Proof.
  intros H. rewrite (handleLogin_no_match o usr pwd w H). simpl.
  split; [reflexivity|]. destruct (usersSheet w); reflexivity.
Qed.

Lemma failed_login_keeps_sessions_witness :
  success (fst (handleLogin o0 (VStr "alice") (VStr "nope") wStale)) = false ∧
  sessionsSheet (snd (handleLogin o0 (VStr "alice") (VStr "nope") wStale))
  = Some [sessionsHeader; staleRow].
Proof.
  apply (failed_login_keeps_sessions o0 (VStr "alice") (VStr "nope") wStale).
  intros r Hr [_ Hp]. apply list_elem_of_singleton in Hr as ->. discriminate.
Defined.

(** ** Session validation *)

Lemma getSession_rows (tok : value) (w : world) :
  getSession tok w = getSessionLoop tok (sessionRows w).
Proof. unfold getSession, sessionRows. destruct (sessionsSheet w); reflexivity. Qed.

Lemma getSessionLoop_none (tok : value) (rows : list srow) :
  getSessionLoop tok rows = None ↔ ∀ s, s ∈ rows → s_token s ≠ tok.
Proof.
  induction rows as [|x rows IH]; simpl.
  - split; [intros _ s Hs; inversion Hs | reflexivity].
  - destruct (strict_eq (s_token x) tok) eqn:Hx.
    + split; [discriminate|]. intros H. apply strict_eq_true in Hx.
      exfalso. apply (H x); [left | exact Hx].
    + rewrite IH. apply strict_eq_false in Hx. split.
      * intros H s Hs. apply elem_of_cons in Hs as [-> | Hs]; auto.
      * intros H s Hs. apply H. right. exact Hs.
Qed.

Lemma getSessionLoop_some (tok : value) (rows : list srow) (s : srow) :
  getSessionLoop tok rows = Some s ↔
  ∃ pre post, rows = pre ++ s :: post ∧ s_token s = tok ∧
              ∀ x, x ∈ pre → s_token x ≠ tok.
Proof.
  induction rows as [|x rows IH]; simpl.
  - split; [discriminate|]. intros (pre & post & H & _).
    destruct pre; discriminate.
  - destruct (strict_eq (s_token x) tok) eqn:Hx.
    + apply strict_eq_true in Hx. split.
      * intros [= <-]. exists [], rows. repeat split; [exact Hx|].
        intros y Hy. inversion Hy.
      * intros (pre & post & Heq & Htok & Hpre).
        destruct pre as [|y pre]; simpl in Heq.
        -- congruence.
        -- injection Heq as <- _. exfalso. apply (Hpre x); [left | exact Hx].
    + apply strict_eq_false in Hx. rewrite IH. split.
      * intros (pre & post & -> & Htok & Hpre).
        exists (x :: pre), post. repeat split; [exact Htok|].
        intros y Hy. apply elem_of_cons in Hy as [-> | Hy]; auto.
      * intros (pre & post & Heq & Htok & Hpre).
        destruct pre as [|y pre]; simpl in Heq.
        -- injection Heq as -> _. contradiction.
        -- injection Heq as <- ->. exists pre, post. repeat split; auto.
           intros z Hz. apply Hpre. right. exact Hz.
Qed.

Lemma isSessionExpired_iff (s : srow) (now : Z) :
  isSessionExpired s now = true ↔ ∃ e, s_expiresAt s = Some e ∧ (e < now)%Z.
Proof.
  unfold isSessionExpired, expiredAt. destruct (s_expiresAt s) as [e|].
  - rewrite Z.ltb_lt. split; [intros H; exists e; auto|].
    intros (e' & [= <-] & H). exact H.
  - split; [discriminate | intros (e & H & _); discriminate].
Qed.

Lemma handleValidateSession_world (o : oracle) (tok : value) (w : world) :
  snd (handleValidateSession o tok w) = w.
Proof.
  unfold handleValidateSession.
  destruct (getSession tok w) as [s|]; [|reflexivity].
  destruct (isSessionExpired s (o_checkNow o)); [reflexivity|].
  destruct (s_userData s); reflexivity.
Qed.

Lemma handleValidateSession_getSession (o : oracle) (tok : value)
    (w1 w2 : world) :
  getSession tok w1 = getSession tok w2 →
  fst (handleValidateSession o tok w1) = fst (handleValidateSession o tok w2).
Proof.
  intros H. unfold handleValidateSession. rewrite H.
  destruct (getSession tok w2) as [s|]; [|reflexivity].
  destruct (isSessionExpired s (o_checkNow o)); [reflexivity|].
  destruct (s_userData s); reflexivity.
Qed.

Lemma handleValidateSession_absent (o : oracle) (tok : value) (w : world) :
  (∀ s, s ∈ sessionRows w → s_token s ≠ tok) →
  fst (handleValidateSession o tok w)
  = createResponse false "Invalid or expired session" None.
Proof.
  intros H. apply getSessionLoop_none in H. rewrite <- getSession_rows in H.
  unfold handleValidateSession. rewrite H. reflexivity.
Qed.

(** C2 (amended). validateSession answers success=false when no session
    row carries the token and when the first such row is expired, a row
    being expired exactly when its expiry time is < now. Otherwise, when
    the row's User Data cell parses as JSON, it answers success=true with
    the value parsed from that cell, the stored snapshot; when the cell
    does not parse, the exception is caught and the answer is
    success=false with a 'Validation error: ...' message. The answer does
    not depend on the Users sheet, and the spreadsheet is left as it
    was. *)
Theorem validateSession_spec (o : oracle) (tok : value) (w : world) :
  ((∀ s, s ∈ sessionRows w → s_token s ≠ tok) →
     success (fst (handleValidateSession o tok w)) = false) ∧
  (∀ s, getSession tok w = Some s →
     isSessionExpired s (o_checkNow o) = true →
     success (fst (handleValidateSession o tok w)) = false) ∧
  (∀ s j, getSession tok w = Some s →
     isSessionExpired s (o_checkNow o) = false →
     s_userData s = CellJson j →
     success (fst (handleValidateSession o tok w)) = true ∧
     r_user (fst (handleValidateSession o tok w)) = Some j ∧
     message (fst (handleValidateSession o tok w)) = "Session valid"%string ∧
     r_sessionToken (fst (handleValidateSession o tok w)) = None) ∧
  (∀ s, getSession tok w = Some s →
     isSessionExpired s (o_checkNow o) = false →
     s_userData s = CellNotJson →
     success (fst (handleValidateSession o tok w)) = false ∧
     r_user (fst (handleValidateSession o tok w)) = None ∧
     message (fst (handleValidateSession o tok w))
     = ("Validation error: " ++ o_parseError o)%string) ∧
  (∀ s, getSession tok w = Some s ↔
     ∃ pre post, sessionRows w = pre ++ s :: post ∧ s_token s = tok ∧
                 ∀ x, x ∈ pre → s_token x ≠ tok) ∧
  (∀ s now, isSessionExpired s now = true ↔
     ∃ e, s_expiresAt s = Some e ∧ (e < now)%Z) ∧
  (∀ us, fst (handleValidateSession o tok (mkWorld us (sessionsSheet w)))
         = fst (handleValidateSession o tok w)) ∧
  snd (handleValidateSession o tok w) = w.
Proof.
  split.
  { intros H. rewrite (handleValidateSession_absent o tok w H). reflexivity. }
  split.
  { intros s Hs Hexp. unfold handleValidateSession. rewrite Hs, Hexp.
    reflexivity. }
  split.
  { intros s j Hs Hexp Hj. unfold handleValidateSession.
    rewrite Hs, Hexp, Hj. repeat split. }
  split.
  { intros s Hs Hexp Hj. unfold handleValidateSession.
    rewrite Hs, Hexp, Hj. repeat split. }
  split.
  { intros s. rewrite getSession_rows. apply getSessionLoop_some. }
  split.
  { apply isSessionExpired_iff. }
  split.
  { intros us. apply handleValidateSession_getSession. reflexivity. }
  apply handleValidateSession_world.
Qed.

Lemma validateSession_spec_witness :
  success (fst (handleValidateSession o0 (VStr "tok_1000") wLive)) = true ∧
  r_user (fst (handleValidateSession o0 (VStr "tok_1000") wLive))
  = Some (JObject alice) ∧
  message (fst (handleValidateSession o0 (VStr "tok_1000") wLive))
  = "Session valid"%string ∧
  r_sessionToken (fst (handleValidateSession o0 (VStr "tok_1000") wLive))
  = None.
Proof.
  apply (proj1 (proj2 (proj2
           (validateSession_spec o0 (VStr "tok_1000") wLive)))
           liveRow (JObject alice));
    reflexivity.
Defined.

(** C2 as stated fails: a session row that exists and has not expired, but
    whose User Data cell is not JSON, is answered with success=false. *)
Lemma validateSession_unparsable_counterexample :
  ¬ (∀ (o : oracle) (tok : value) (w : world) (s : srow),
       getSession tok w = Some s →
       isSessionExpired s (o_checkNow o) = false →
       success (fst (handleValidateSession o tok w)) = true).
Proof.
  intros H.
  specialize (H o0 (VStr "t_1") wGarbled garbledRow eq_refl eq_refl).
  discriminate H.
Qed.

(** ** Storing a session *)

Lemma storeSessionAppend_sheet (o : oracle) (tok : string) (u : user)
    (w : world) :
  sessionsSheet (storeSessionAppend o tok u w)
  = Some (baseSheet w ++ [newSessionRow tok u (o_now o)]).
Proof.
  unfold storeSessionAppend, baseSheet, appendRow. simpl.
  destruct (sessionsSheet w); reflexivity.
Qed.

Lemma storeSession_sheet (o : oracle) (tok : string) (u : user) (w : world) :
  sessionsSheet (storeSession o tok u w)
  = Some (cleanupSheet (o_sweepNow o)
            (baseSheet w ++ [newSessionRow tok u (o_now o)])).
Proof.
  unfold storeSession, cleanupExpiredSessions.
  rewrite storeSessionAppend_sheet. reflexivity.
Qed.

Lemma storeSession_users (o : oracle) (tok : string) (u : user) (w : world) :
  usersSheet (storeSession o tok u w) = usersSheet w.
Proof.
  unfold storeSession, cleanupExpiredSessions.
  rewrite storeSessionAppend_sheet. reflexivity.
Qed.

Lemma newSessionRow_survives (tok : string) (u : user) (now sweep : Z) :
  (sweep ≤ now + SESSION_TIMEOUT)%Z →
  survives sweep (newSessionRow tok u now).
Proof.
  intros H. unfold survives, isSessionExpired, newSessionRow, expiredAt. simpl.
  apply Z.ltb_ge. exact H.
Qed.

Lemma getSessionLoop_app_fresh (tok : value) (l1 l2 : list srow) :
  (∀ s, s ∈ l1 → s_token s ≠ tok) →
  getSessionLoop tok (l1 ++ l2) = getSessionLoop tok l2.
Proof.
  induction l1 as [|x l1 IH]; intros H; simpl; [reflexivity|].
  assert (Hx : strict_eq (s_token x) tok = false).
  { apply strict_eq_false. apply H. left. }
  rewrite Hx. apply IH. intros s Hs. apply H. right. exact Hs.
Qed.

Lemma getSession_after_store (o : oracle) (tok : string) (u : user)
    (w : world) :
  sessionsSheet w ≠ Some [] →
  (∀ s, s ∈ sessionRows w → s_token s ≠ VStr tok) →
  (o_sweepNow o ≤ o_now o + SESSION_TIMEOUT)%Z →
  getSession (VStr tok) (storeSession o tok u w)
  = Some (newSessionRow tok u (o_now o)).
Proof.
  intros Hhdr Hfresh Hsweep.
  unfold getSession. rewrite storeSession_sheet.
  assert (Hbase : ∃ h t, baseSheet w = h :: t ∧ sessionRows w = t).
  { unfold baseSheet, sessionRows. destruct (sessionsSheet w) as [[|h t]|].
    - contradiction.
    - exists h, t. split; reflexivity.
    - exists sessionsHeader, []. split; reflexivity. }
  destruct Hbase as (h & t & Hb & Hrows). rewrite Hb. simpl app.
  rewrite cleanupSheet_spec. cbn [getValues]. rewrite skipn_cons, drop_0.
  rewrite filter_app, getSessionLoop_app_fresh.
  - rewrite filter_cons_True, filter_nil
      by (apply newSessionRow_survives; exact Hsweep).
    simpl. rewrite String.eqb_refl. reflexivity.
  - intros s Hs. apply list_elem_of_filter in Hs as [_ Hs].
    apply Hfresh. rewrite Hrows. exact Hs.
Qed.

(** C3 (amended). After a successful login that returned [tok],
    validateSession on [tok] answers success=true with the user of the
    login response (hence the same id), provided no more than 24 hours
    have passed since the session was stored, the Sessions sheet, when
    present, has at least its first (header) row, and the generated token
    is not already the token of a stored session. *)
Theorem login_then_validate (o o' : oracle) (usr pwd : value) (w w' : world)
    (r : response) (tok : string) :
  handleLogin o usr pwd w = (r, w') →
  success r = true →
  r_sessionToken r = Some tok →
  sessionsSheet w ≠ Some [] →
  (∀ s, s ∈ sessionRows w → s_token s ≠ VStr tok) →
  (o_sweepNow o ≤ o_now o + SESSION_TIMEOUT)%Z →
  (o_checkNow o' ≤ o_now o + SESSION_TIMEOUT)%Z →
  ∃ u, r_user r = Some (JObject u) ∧
       success (fst (handleValidateSession o' (VStr tok) w')) = true ∧
       r_user (fst (handleValidateSession o' (VStr tok) w'))
       = Some (JObject u) ∧
       message (fst (handleValidateSession o' (VStr tok) w'))
       = "Session valid"%string ∧
       r_sessionToken (fst (handleValidateSession o' (VStr tok) w')) = None.
Proof.
  intros Hlogin Hok Htok Hhdr Hfresh Hsweep Hcheck.
  rewrite handleLogin_unfold, loginLoop_firstMatch in Hlogin.
  destruct (firstMatch usr pwd (dataRows blankU (usersOf o w))) as [row|].
  - injection Hlogin as <- <-. simpl in Htok. injection Htok as <-.
    exists (userOfRow o row). split; [reflexivity|].
    set (w1 := match usersSheet w with Some _ => w | None => withUsers o w end).
    assert (Hs1 : sessionsSheet w1 = sessionsSheet w).
    { unfold w1. destruct (usersSheet w); reflexivity. }
    assert (Hget : getSession (VStr (generateSessionToken o))
                     (storeSession o (generateSessionToken o)
                        (userOfRow o row) w1)
                   = Some (newSessionRow (generateSessionToken o)
                             (userOfRow o row) (o_now o))).
    { apply getSession_after_store.
      - rewrite Hs1. exact Hhdr.
      - unfold sessionRows. rewrite Hs1. exact Hfresh.
      - exact Hsweep. }
    unfold handleValidateSession. rewrite Hget.
    assert (Hlive : isSessionExpired
                      (newSessionRow (generateSessionToken o)
                         (userOfRow o row) (o_now o)) (o_checkNow o') = false).
    { apply newSessionRow_survives. exact Hcheck. }
    rewrite Hlive. simpl. repeat split.
  - injection Hlogin as <- _. discriminate Hok.
Qed.

Lemma login_then_validate_witness :
  ∃ u, r_user (fst (handleLogin o0 (VStr "alice") (VStr "pw") w0))
       = Some (JObject u) ∧
       success (fst (handleValidateSession o0 (VStr "tok_1000")
                       (snd (handleLogin o0 (VStr "alice") (VStr "pw") w0))))
       = true ∧
       r_user (fst (handleValidateSession o0 (VStr "tok_1000")
                      (snd (handleLogin o0 (VStr "alice") (VStr "pw") w0))))
       = Some (JObject u) ∧
       message (fst (handleValidateSession o0 (VStr "tok_1000")
                       (snd (handleLogin o0 (VStr "alice") (VStr "pw") w0))))
       = "Session valid"%string ∧
       r_sessionToken
         (fst (handleValidateSession o0 (VStr "tok_1000")
                 (snd (handleLogin o0 (VStr "alice") (VStr "pw") w0))))
       = None.
Proof.
  apply (login_then_validate o0 o0 (VStr "alice") (VStr "pw") w0).
  - reflexivity.
  - reflexivity.
  - reflexivity.
  - discriminate.
  - intros s Hs. inversion Hs.
  - unfold SESSION_TIMEOUT. simpl. lia.
  - unfold SESSION_TIMEOUT. simpl. lia.
Defined.

(** C3 as stated fails, in two ways. On a Sessions sheet that exists but
    has no row, the session is appended as row 1, which getSession skips:
    the login succeeds and its token does not validate. On a Sessions
    sheet where a row already carries the generated token, validation
    finds that older row and answers with its user. *)
Lemma login_then_validate_counterexample :
  ¬ (∀ (o o' : oracle) (usr pwd : value) (w w' : world) (r : response)
       (tok : string),
       handleLogin o usr pwd w = (r, w') →
       success r = true →
       r_sessionToken r = Some tok →
       (o_sweepNow o ≤ o_now o + SESSION_TIMEOUT)%Z →
       (o_checkNow o' ≤ o_now o + SESSION_TIMEOUT)%Z →
       success (fst (handleValidateSession o' (VStr tok) w')) = true) ∧
  ¬ (∀ (o o' : oracle) (usr pwd : value) (w w' : world) (r : response)
       (tok : string),
       handleLogin o usr pwd w = (r, w') →
       success r = true →
       r_sessionToken r = Some tok →
       sessionsSheet w ≠ Some [] →
       (o_sweepNow o ≤ o_now o + SESSION_TIMEOUT)%Z →
       (o_checkNow o' ≤ o_now o + SESSION_TIMEOUT)%Z →
       ∃ u, r_user r = Some (JObject u) ∧
            r_user (fst (handleValidateSession o' (VStr tok) w'))
            = Some (JObject u)).
Proof.
  assert (H1 : (o_sweepNow o0 ≤ o_now o0 + SESSION_TIMEOUT)%Z)
    by (unfold SESSION_TIMEOUT; simpl; lia).
  assert (H2 : (o_checkNow o0 ≤ o_now o0 + SESSION_TIMEOUT)%Z)
    by (unfold SESSION_TIMEOUT; simpl; lia).
  split; intros H.
  - specialize (H o0 o0 (VStr "alice") (VStr "pw") wNoHeader
                  (snd (handleLogin o0 (VStr "alice") (VStr "pw") wNoHeader))
                  (fst (handleLogin o0 (VStr "alice") (VStr "pw") wNoHeader))
                  "tok_1000"%string eq_refl eq_refl eq_refl H1 H2).
    vm_compute in H. discriminate H.
  - destruct (H o0 o0 (VStr "alice") (VStr "pw") wCollision
                (snd (handleLogin o0 (VStr "alice") (VStr "pw") wCollision))
                (fst (handleLogin o0 (VStr "alice") (VStr "pw") wCollision))
                "tok_1000"%string eq_refl eq_refl eq_refl
                ltac:(discriminate) H1 H2) as (u & Hu & Hv).
    vm_compute in Hu, Hv. congruence.
Qed.

(** ** Logout *)

Lemma tokenCount_zero (tok : value) (rows : list srow) :
  tokenCount tok rows = 0 → ∀ s, s ∈ rows → s_token s ≠ tok.
Proof.
  unfold tokenCount. intros H s Hs Htok.
  apply length_zero_iff_nil in H.
  assert (Hin : s ∈ filter (λ s, s_token s = tok) rows)
    by (apply list_elem_of_filter; auto).
  rewrite H in Hin. inversion Hin.
Qed.

Lemma removeFirst_split (tok : value) (pre : list srow) (s : srow)
    (post : list srow) :
  s_token s = tok →
  (∀ x, x ∈ pre → s_token x ≠ tok) →
  removeFirst tok (pre ++ s :: post) = pre ++ post.
Proof.
  intros Hs Hpre. induction pre as [|x pre IH]; simpl.
  - apply strict_eq_true in Hs. rewrite Hs. reflexivity.
  - assert (Hx : strict_eq (s_token x) tok = false).
    { apply strict_eq_false. apply Hpre. left. }
    rewrite Hx, IH; [reflexivity|]. intros y Hy. apply Hpre. right. exact Hy.
Qed.

Lemma removeFirst_absent (tok : value) (rows : list srow) :
  (∀ x, x ∈ rows → s_token x ≠ tok) → removeFirst tok rows = rows.
Proof.
  induction rows as [|x rows IH]; intros H; simpl; [reflexivity|].
  assert (Hx : strict_eq (s_token x) tok = false).
  { apply strict_eq_false. apply H. left. }
  rewrite Hx, IH; [reflexivity|]. intros y Hy. apply H. right. exact Hy.
Qed.

Lemma removeFirst_unique (tok : value) (rows : list srow) :
  (tokenCount tok rows ≤ 1)%nat →
  ∀ s, s ∈ removeFirst tok rows → s_token s ≠ tok.
Proof.
  induction rows as [|x rows IH]; simpl; intros Hc s Hs.
  - inversion Hs.
  - unfold tokenCount in Hc. destruct (strict_eq (s_token x) tok) eqn:Hx.
    + apply strict_eq_true in Hx. rewrite filter_cons_True in Hc by exact Hx.
      simpl in Hc. apply (tokenCount_zero tok rows); [|exact Hs].
      unfold tokenCount. lia.
    + apply strict_eq_false in Hx. rewrite filter_cons_False in Hc by exact Hx.
      apply elem_of_cons in Hs as [-> | Hs]; [exact Hx|].
      apply IH; assumption.
Qed.

Lemma sessionRows_logout (tok : value) (w : world) :
  sessionRows (snd (handleLogout tok w)) = removeFirst tok (sessionRows w).
Proof.
  destruct w as [us [[|h t]|]]; unfold handleLogout, sessionRows; simpl;
    [reflexivity | | reflexivity].
  rewrite logoutSheet_spec. reflexivity.
Qed.

(** C4 (amended). logout always answers success=true; it deletes the first
    session row carrying the token and nothing else, and changes nothing
    when no row carries it. After logout of a token that at most one
    session row carried, validateSession on that token fails. *)
Theorem logout_spec (o : oracle) (tok : value) (w : world) :
  fst (handleLogout tok w)
  = createResponse true "Logged out successfully" None ∧
  usersSheet (snd (handleLogout tok w)) = usersSheet w ∧
  option_map (take 1) (sessionsSheet (snd (handleLogout tok w)))
  = option_map (take 1) (sessionsSheet w) ∧
  (∀ pre s post,
     sessionRows w = pre ++ s :: post →
     s_token s = tok →
     (∀ x, x ∈ pre → s_token x ≠ tok) →
     sessionRows (snd (handleLogout tok w)) = pre ++ post) ∧
  ((∀ s, s ∈ sessionRows w → s_token s ≠ tok) →
     snd (handleLogout tok w) = w) ∧
  ((tokenCount tok (sessionRows w) ≤ 1)%nat →
     success (fst (handleValidateSession o tok (snd (handleLogout tok w))))
     = false).
Proof.
  split; [reflexivity|]. split.
  { unfold handleLogout. simpl. destruct (sessionsSheet w); reflexivity. }
  split.
  { destruct w as [us [[|h t]|]]; unfold handleLogout; simpl;
      [reflexivity | | reflexivity].
    rewrite logoutSheet_spec. reflexivity. }
  split.
  { intros pre s post Hrows Hs Hpre.
    rewrite sessionRows_logout, Hrows. apply removeFirst_split; assumption. }
  split.
  { intros Habs. destruct w as [us [[|h t]|]]; unfold handleLogout; simpl;
      [reflexivity | | reflexivity].
    rewrite logoutSheet_spec.
    rewrite (removeFirst_absent tok t); [reflexivity|]. exact Habs. }
  intros Hc. rewrite handleValidateSession_absent; [reflexivity|].
  rewrite sessionRows_logout. apply removeFirst_unique. exact Hc.
Qed.

Lemma logout_spec_witness :
  success (fst (handleValidateSession o0 (VStr "tok_1000")
                  (snd (handleLogout (VStr "tok_1000") wLive)))) = false.
Proof.
  apply (proj2 (proj2 (proj2 (proj2 (proj2
           (logout_spec o0 (VStr "tok_1000") wLive)))))).
  vm_compute. lia.
Defined.

(** C4 as stated fails: when two rows carry the token, logout deletes the
    first and validateSession then finds the second. *)
Lemma logout_then_validate_counterexample :
  ¬ (∀ (o : oracle) (tok : value) (w : world),
       success (fst (handleValidateSession o tok (snd (handleLogout tok w))))
       = false).
Proof.
  intros H. specialize (H o0 (VStr "tok_1000") wDup).
  vm_compute in H. discriminate H.
Qed.

(** ** The cleanup sweep *)

(** C10. The sweep never deletes row 1 (the header row); the data rows it
    leaves are exactly the data rows whose expiry has not passed, in their
    original relative order; a missing Sessions sheet is left missing. *)
Theorem cleanup_keeps_header_and_order (now : Z) (sh : list srow)
    (us : option (list urow)) :
  take 1 (cleanupSheet now sh) = take 1 sh ∧
  drop 1 (cleanupSheet now sh) = filter (survives now) (drop 1 sh) ∧
  cleanupSheet now sh `sublist_of` sh ∧
  cleanupExpiredSessions now (mkWorld us (Some sh))
  = mkWorld us (Some (cleanupSheet now sh)) ∧
  cleanupExpiredSessions now (mkWorld us None) = mkWorld us None.
Proof.
  destruct sh as [|h t].
  - split; [reflexivity|]. split; [reflexivity|].
    split; [constructor|]. split; reflexivity.
  - unfold cleanupExpiredSessions. cbn [sessionsSheet usersSheet].
    rewrite cleanupSheet_spec.
    split; [reflexivity|]. split; [reflexivity|]. split.
    + apply sublist_skip. apply sublist_filter.
    + split; reflexivity.
Qed.

(** C5. Storing a session appends its row and then sweeps: every data row
    whose expiry has passed at the time of the sweep is deleted, every
    other row stays, unchanged and in place, and so does the new row as
    long as it has not itself expired. The Users sheet is not touched. *)
Theorem store_sweeps_expired (o : oracle) (tok : string) (u : user)
    (w : world) :
  ∃ h t,
    baseSheet w ++ [newSessionRow tok u (o_now o)] = h :: t ∧
    sessionsSheet (storeSessionAppend o tok u w) = Some (h :: t) ∧
    sessionsSheet (storeSession o tok u w)
    = Some (h :: filter (survives (o_sweepNow o)) t) ∧
    (∀ s, s ∈ filter (survives (o_sweepNow o)) t ↔
          s ∈ t ∧ isSessionExpired s (o_sweepNow o) = false) ∧
    ((o_sweepNow o ≤ o_now o + SESSION_TIMEOUT)%Z →
       newSessionRow tok u (o_now o) ∈ h :: filter (survives (o_sweepNow o)) t) ∧
    usersSheet (storeSession o tok u w) = usersSheet w.
Proof.
  destruct (baseSheet w ++ [newSessionRow tok u (o_now o)]) as [|h t] eqn:Hb.
  { destruct (baseSheet w); discriminate. }
  exists h, t. split; [reflexivity|]. split.
  { rewrite storeSessionAppend_sheet, Hb. reflexivity. } split.
  { rewrite storeSession_sheet, Hb, cleanupSheet_spec. reflexivity. } split.
  { intros s. rewrite list_elem_of_filter. unfold survives. tauto. } split.
  { intros Hsweep.
    assert (Hin : newSessionRow tok u (o_now o) ∈ h :: t).
    { rewrite <- Hb. apply elem_of_app. right. left. }
    apply elem_of_cons in Hin as [-> | Hin]; [left | right].
    apply list_elem_of_filter. split; [|exact Hin].
    apply newSessionRow_survives. exact Hsweep. }
  apply storeSession_users.
Qed.

Lemma store_sweeps_expired_witness :
  sessionsSheet (storeSession o0 "tok_1000" alice wStale)
  = Some [sessionsHeader; liveRow].
Proof.
  destruct (store_sweeps_expired o0 "tok_1000" alice wStale)
    as (h & t & Hb & _ & Hs & _).
  injection Hb as <- <-. exact Hs.
Defined.

(** ** Session rows are written once *)

Lemma removeFirst_subset (tok : value) (rows : list srow) (s : srow) :
  s ∈ removeFirst tok rows → s ∈ rows.
Proof.
  induction rows as [|x rows IH]; simpl; [trivial|].
  destruct (strict_eq (s_token x) tok); intros H.
  - right. exact H.
  - apply elem_of_cons in H as [-> | H]; [left | right; auto].
Qed.

Lemma sessionRows_cleanup (now : Z) (w : world) :
  sessionRows (cleanupExpiredSessions now w)
  = filter (survives now) (sessionRows w).
Proof.
  destruct w as [us [[|h t]|]]; unfold cleanupExpiredSessions, sessionRows;
    simpl; [reflexivity | | reflexivity].
  rewrite cleanupSheet_spec. reflexivity.
Qed.

(** C7. A successful login stores the session by appending exactly one row
    to the Sessions sheet, with creation time [now] and expiry time
    [now + 24 h] (86400000 ms), before the sweep runs. No handler rewrites
    a stored row afterwards: validateSession leaves the spreadsheet as it
    is, and logout and the sweep only delete rows. *)
Theorem login_appends_one_session (o : oracle) (usr pwd : value)
    (w w' : world) (r : response) :
  handleLogin o usr pwd w = (r, w') →
  success r = true →
  (∃ tok u,
     r_sessionToken r = Some tok ∧ r_user r = Some (JObject u) ∧
     w' = cleanupExpiredSessions (o_sweepNow o)
            (mkWorld (Some (usersOf o w))
               (Some (baseSheet w ++
                      [mkSRow (VStr tok) (CellJson (JObject u)) (Some (o_now o))
                              (Some (o_now o + 86400000)%Z)]))) ∧
     length (baseSheet w ++
             [mkSRow (VStr tok) (CellJson (JObject u)) (Some (o_now o))
                     (Some (o_now o + 86400000)%Z)])
     = S (length (baseSheet w))) ∧
  (∀ o1 t w1, snd (handleValidateSession o1 t w1) = w1) ∧
  (∀ t w1 s, s ∈ sessionRows (snd (handleLogout t w1)) → s ∈ sessionRows w1) ∧
  (∀ now w1 s, s ∈ sessionRows (cleanupExpiredSessions now w1) →
               s ∈ sessionRows w1).
Proof.
  intros Hlogin Hok. split; [|split; [|split]].
  - rewrite handleLogin_unfold, loginLoop_firstMatch in Hlogin.
    destruct (firstMatch usr pwd (dataRows blankU (usersOf o w))) as [row|].
    + injection Hlogin as <- <-.
      exists (generateSessionToken o), (userOfRow o row).
      split; [reflexivity|]. split; [reflexivity|]. split.
      * unfold storeSession, storeSessionAppend, usersOf, baseSheet, withUsers,
          appendRow, newSessionRow.
        destruct w as [[us|] [ss|]]; reflexivity.
      * rewrite length_app. simpl. lia.
    + injection Hlogin as <- _. discriminate Hok.
  - intros o1 t w1. apply handleValidateSession_world.
  - intros t w1 s. rewrite sessionRows_logout. apply removeFirst_subset.
  - intros now w1 s. rewrite sessionRows_cleanup.
    intros H. apply list_elem_of_filter in H as [_ H]. exact H.
Qed.

Lemma login_appends_one_session_witness :
  snd (handleLogin o0 (VStr "alice") (VStr "pw") wStale)
  = mkWorld (Some [usersHeader; aliceRow])
            (Some [sessionsHeader;
                   mkSRow (VStr "tok_1000") (CellJson (JObject alice))
                          (Some 1000%Z)
                          (Some 86401000%Z)]).
Proof.
  destruct (login_appends_one_session o0 (VStr "alice") (VStr "pw") wStale
              (snd (handleLogin o0 (VStr "alice") (VStr "pw") wStale))
              (fst (handleLogin o0 (VStr "alice") (VStr "pw") wStale))
              eq_refl eq_refl) as [(tok & u & Ht & Hu & Hw & _) _].
  injection Ht as <-. injection Hu as <-. exact Hw.
Defined.

(** ** Dispatch *)

(** C8. doPost hands a request to exactly one handler, chosen by its action
    field: 'login', 'logout' or 'validateSession'. Every answer is a
    [response], whose [success] is a boolean and whose [message] is a
    string. Any other action, and any body that cannot be parsed, is
    answered with success=false and changes nothing. *)
Theorem doPost_dispatch (o : oracle) (w : world) :
  (∀ usr pwd tok,
     doPost o (Parsed (mkRequest (VStr "login") usr pwd tok)) w
     = handleLogin o usr pwd w) ∧
  (∀ usr pwd tok,
     doPost o (Parsed (mkRequest (VStr "logout") usr pwd tok)) w
     = handleLogout tok w) ∧
  (∀ usr pwd tok,
     doPost o (Parsed (mkRequest (VStr "validateSession") usr pwd tok)) w
     = handleValidateSession o tok w) ∧
  (∀ data,
     q_action data ≠ VStr "login" →
     q_action data ≠ VStr "logout" →
     q_action data ≠ VStr "validateSession" →
     doPost o (Parsed data) w
     = (createResponse false "Invalid action" None, w) ∧
     success (fst (doPost o (Parsed data) w)) = false) ∧
  (∀ error,
     doPost o (Throws error) w
     = (createResponse false ("Server error: " ++ error)%string None, w) ∧
     success (fst (doPost o (Throws error) w)) = false).
Proof.
  split; [reflexivity|]. split; [reflexivity|]. split; [reflexivity|]. split.
  - intros data H1 H2 H3. apply strict_eq_false in H1, H2, H3.
    unfold doPost. rewrite H1, H2, H3. split; reflexivity.
  - intros error. split; reflexivity.
Qed.

Lemma doPost_dispatch_witness :
  doPost o0 (Parsed (mkRequest (VStr "Login") VUndef VUndef VUndef)) w0
  = (createResponse false "Invalid action" None, w0) ∧
  success (fst (doPost o0
                  (Parsed (mkRequest (VStr "Login") VUndef VUndef VUndef)) w0))
  = false.
Proof.
  apply (proj1 (proj2 (proj2 (proj2 (doPost_dispatch o0 w0))))
           (mkRequest (VStr "Login") VUndef VUndef VUndef));
    discriminate.
Defined.

(** ** The header row is an invariant of the Sessions sheet *)

(** Once the Sessions sheet has a first row, every request keeps it: a
    Sessions sheet that is missing, or was created with its header, never
    becomes an empty sheet. *)
Lemma doPost_keeps_header (o : oracle) (e : postBody) (w : world) :
  sessionsSheet w ≠ Some [] →
  sessionsSheet (snd (doPost o e w)) ≠ Some [].
Proof.
  intros Hw. destruct e as [error|data]; [exact Hw|]. unfold doPost.
  destruct (strict_eq (q_action data) (VStr "login")).
  { rewrite handleLogin_unfold, loginLoop_firstMatch.
    destruct (firstMatch _ _ _) as [row|]; cbn [snd].
    - rewrite storeSession_sheet.
      destruct (baseSheet _ ++ _) as [|h t] eqn:Hb.
      + destruct (baseSheet _); discriminate.
      + rewrite cleanupSheet_spec. discriminate.
    - destruct (usersSheet w); exact Hw. }
  destruct (strict_eq (q_action data) (VStr "logout")).
  { unfold handleLogout. cbn [snd].
    destruct (sessionsSheet w) as [[|h t]|] eqn:Hs; cbn [sessionsSheet].
    - contradiction.
    - rewrite logoutSheet_spec. discriminate.
    - rewrite Hs. discriminate. }
  destruct (strict_eq (q_action data) (VStr "validateSession")).
  { rewrite handleValidateSession_world. exact Hw. }
  exact Hw.
Qed.

(** ** The scenario of the specification's examples *)

Example admin_login_succeeds :
  let r := fst (handleLogin oAdmin (VStr "admin") (VStr "admin123")
                  (mkWorld None None)) in
  success r = true ∧
  (∃ u, r_user r = Some (JObject u) ∧ role u = VStr "admin") ∧
  r_sessionToken r = Some "uuid_50"%string.
Proof. split; [reflexivity|]. split; [eexists; split; reflexivity|]. reflexivity. Qed.

Example admin_wrong_password_fails :
  fst (handleLogin oAdmin (VStr "admin") (VStr "wrong") (mkWorld None None))
  = createResponse false "Invalid username or password" None.
Proof. reflexivity. Qed.

Example admin_password_is_case_sensitive :
  success (fst (handleLogin oAdmin (VStr "admin") (VStr "Admin123")
                  (mkWorld None None))) = false.
Proof. reflexivity. Qed.

Example admin_token_validates :
  ∃ u, r_user (fst (handleValidateSession oAdmin (VStr "uuid_50")
                      afterAdminLogin)) = Some (JObject u) ∧
       id u = VStr "id-1".
Proof. eexists. split; reflexivity. Qed.

(** One millisecond after the 24 hours the token no longer validates; at
    exactly 24 hours it still does. *)
Example admin_token_expires :
  success (fst (handleValidateSession
                  (mkOracle "" "" "" "" 0 "" 0 0 (50 + SESSION_TIMEOUT + 1) "")
                  (VStr "uuid_50") afterAdminLogin)) = false ∧
  success (fst (handleValidateSession
                  (mkOracle "" "" "" "" 0 "" 0 0 (50 + SESSION_TIMEOUT) "")
                  (VStr "uuid_50") afterAdminLogin)) = true.
Proof. split; reflexivity. Qed.

Example logout_unknown_token_succeeds :
  handleLogout (VStr "nobody") afterAdminLogin
  = (createResponse true "Logged out successfully" None, afterAdminLogin).
Proof. reflexivity. Qed.

(** * Further properties of the session store *)

(** ** Sweeps compose *)

Lemma survives_earlier (now now' : Z) (s : srow) :
  (now ≤ now')%Z → survives now' s → survives now s.
Proof.
  unfold survives, isSessionExpired, expiredAt. intros Hle.
  destruct (s_expiresAt s) as [e|]; [|reflexivity].
  rewrite !Z.ltb_ge. lia.
Qed.

Lemma filter_survives_absorb (now now' : Z) (rows : list srow) :
  (now ≤ now')%Z →
  filter (survives now') (filter (survives now) rows)
  = filter (survives now') rows ∧
  filter (survives now) (filter (survives now') rows)
  = filter (survives now') rows.
Proof.
  intros Hle. induction rows as [|x rows [IH1 IH2]]; [split; reflexivity|].
  destruct (decide (survives now' x)) as [Hx'|Hx'].
  - pose proof (survives_earlier now now' x Hle Hx') as Hx.
    rewrite (filter_cons_True (survives now) x rows Hx).
    rewrite !(filter_cons_True (survives now') x) by exact Hx'.
    rewrite (filter_cons_True (survives now) x _ Hx).
    split; congruence.
  - rewrite !(filter_cons_False (survives now') x rows) by exact Hx'.
    destruct (decide (survives now x)) as [Hx|Hx].
    + rewrite (filter_cons_True (survives now) x rows Hx).
      rewrite (filter_cons_False (survives now') x _ Hx').
      split; assumption.
    + rewrite (filter_cons_False (survives now) x rows Hx).
      split; assumption.
Qed.

(** X1. A sweep run no later than another adds nothing to it, whichever of the
    two runs first; in particular, sweeping twice at the same time is the
    same as sweeping once. *)
Theorem cleanup_absorbs_earlier_sweep (now now' : Z) (w : world) :
  (now ≤ now')%Z →
  cleanupExpiredSessions now' (cleanupExpiredSessions now w)
  = cleanupExpiredSessions now' w ∧
  cleanupExpiredSessions now (cleanupExpiredSessions now' w)
  = cleanupExpiredSessions now' w.
Proof.
  intros Hle. destruct w as [us [[|h t]|]]; unfold cleanupExpiredSessions;
    cbn [sessionsSheet usersSheet]; [split; reflexivity | | split; reflexivity].
  rewrite !cleanupSheet_spec.
  destruct (filter_survives_absorb now now' t Hle) as [H1 H2].
  rewrite H1, H2. split; reflexivity.
Qed.

Lemma cleanup_absorbs_earlier_sweep_witness :
  cleanupExpiredSessions 3000 (cleanupExpiredSessions 1000 wBoth)
  = cleanupExpiredSessions 3000 wBoth ∧
  cleanupExpiredSessions 1000 (cleanupExpiredSessions 3000 wBoth)
  = cleanupExpiredSessions 3000 wBoth.
Proof. apply cleanup_absorbs_earlier_sweep. lia. Defined.

(** ** What validation depends on *)

Lemma handleValidateSession_success (o : oracle) (tok : value) (w : world) :
  success (fst (handleValidateSession o tok w)) = true →
  ∃ s, getSession tok w = Some s ∧
       isSessionExpired s (o_checkNow o) = false.
Proof.
  unfold handleValidateSession.
  destruct (getSession tok w) as [s|]; [|discriminate].
  destruct (isSessionExpired s (o_checkNow o)) eqn:He; [discriminate|].
  intros _. exists s. split; [reflexivity | exact He].
Qed.

Lemma getSessionLoop_filter (tok : value) (P : srow → Prop)
    `{∀ x, Decision (P x)} (rows : list srow) (s : srow) :
  getSessionLoop tok rows = Some s → P s →
  getSessionLoop tok (filter P rows) = Some s.
Proof.
  intros Hget Hs. induction rows as [|x rows IH]; [discriminate|].
  simpl in Hget. destruct (strict_eq (s_token x) tok) eqn:Hx.
  - injection Hget as ->. rewrite filter_cons_True by exact Hs.
    simpl. rewrite Hx. reflexivity.
  - destruct (decide (P x)) as [Hp|Hp].
    + rewrite filter_cons_True by exact Hp. simpl. rewrite Hx. auto.
    + rewrite filter_cons_False by exact Hp. auto.
Qed.

Lemma getSessionLoop_app_found (tok : value) (l1 l2 : list srow) (s : srow) :
  getSessionLoop tok l1 = Some s → getSessionLoop tok (l1 ++ l2) = Some s.
Proof.
  induction l1 as [|x l1 IH]; [discriminate|]. simpl.
  destruct (strict_eq (s_token x) tok); auto.
Qed.

Lemma getSession_cleanup (now : Z) (tok : value) (w : world) :
  getSession tok (cleanupExpiredSessions now w)
  = getSessionLoop tok (filter (survives now) (sessionRows w)).
Proof. rewrite getSession_rows, sessionRows_cleanup. reflexivity. Qed.

(** X2. A sweep never invalidates a session that still validates: if
    validateSession succeeds for a token, it returns the same answer after
    any sweep run no later than the validation. *)
Theorem sweep_keeps_valid_session (now : Z) (o : oracle) (tok : value)
    (w : world) :
  success (fst (handleValidateSession o tok w)) = true →
  (now ≤ o_checkNow o)%Z →
  fst (handleValidateSession o tok (cleanupExpiredSessions now w))
  = fst (handleValidateSession o tok w).
Proof.
  intros Hok Hle.
  destruct (handleValidateSession_success o tok w Hok) as (s & Hget & Hlive).
  apply handleValidateSession_getSession.
  rewrite getSession_cleanup, Hget. rewrite getSession_rows in Hget.
  apply getSessionLoop_filter; [exact Hget|].
  apply (survives_earlier now (o_checkNow o) s Hle). exact Hlive.
Qed.

Lemma sweep_keeps_valid_session_witness :
  fst (handleValidateSession o0 (VStr "tok_1000")
         (cleanupExpiredSessions 1001 wLive))
  = fst (handleValidateSession o0 (VStr "tok_1000") wLive).
Proof.
  apply sweep_keeps_valid_session; [reflexivity | simpl; lia].
Defined.

(** X3. A login, successful or not, never invalidates a session that still
    validates: the answer of validateSession for any token that validated
    before the login is the same after it. *)
Theorem login_keeps_valid_session (o o' : oracle) (usr pwd tok : value)
    (w : world) :
  success (fst (handleValidateSession o' tok w)) = true →
  (o_sweepNow o ≤ o_checkNow o')%Z →
  fst (handleValidateSession o' tok (snd (handleLogin o usr pwd w)))
  = fst (handleValidateSession o' tok w).
Proof.
  intros Hok Hle.
  destruct (handleValidateSession_success o' tok w Hok) as (s & Hget & Hlive).
  apply handleValidateSession_getSession. rewrite Hget.
  rewrite handleLogin_unfold, loginLoop_firstMatch.
  destruct (firstMatch usr pwd (dataRows blankU (usersOf o w))) as [row|];
    cbn [snd].
  - unfold getSession in Hget |- *. rewrite storeSession_sheet.
    assert (Hs : sessionsSheet
                   (match usersSheet w with
                    | Some _ => w | None => withUsers o w end)
                 = sessionsSheet w) by (destruct (usersSheet w); reflexivity).
    unfold baseSheet. rewrite Hs.
    destruct (sessionsSheet w) as [[|h t]|]; try discriminate Hget.
    simpl app. rewrite cleanupSheet_spec. cbn [getValues] in *.
    rewrite skipn_cons, drop_0 in *.
    apply getSessionLoop_filter.
    + apply getSessionLoop_app_found. exact Hget.
    + apply (survives_earlier _ (o_checkNow o') s Hle). exact Hlive.
  - rewrite <- Hget. unfold getSession.
    destruct (usersSheet w); reflexivity.
Qed.

Lemma login_keeps_valid_session_witness :
  fst (handleValidateSession (mkOracle "" "" "" "" 0 "" 0 0 2000 "")
         (VStr "tok_1000")
         (snd (handleLogin (mkOracle "" "" "" "second" 1500 "" 1500 1501 0 "")
                 (VStr "alice") (VStr "pw") wLive)))
  = fst (handleValidateSession (mkOracle "" "" "" "" 0 "" 0 0 2000 "")
           (VStr "tok_1000") wLive).
Proof.
  apply login_keeps_valid_session; [reflexivity | simpl; lia].
Defined.

(** ** Logout touches one token only *)

Lemma getSessionLoop_removeFirst (tok tok' : value) (rows : list srow) :
  tok ≠ tok' →
  getSessionLoop tok' (removeFirst tok rows) = getSessionLoop tok' rows.
Proof.
  intros Hne. induction rows as [|x rows IH]; simpl; [reflexivity|].
  destruct (strict_eq (s_token x) tok) eqn:Hx.
  - apply strict_eq_true in Hx.
    assert (Hx' : strict_eq (s_token x) tok' = false)
      by (apply strict_eq_false; congruence).
    rewrite Hx'. reflexivity.
  - simpl. rewrite IH. reflexivity.
Qed.

(** X4. Logging out one token leaves every other token as it was:
    validateSession for a different token answers the same before and
    after the logout. *)
Theorem logout_keeps_other_sessions (o : oracle) (tok tok' : value)
    (w : world) :
  tok ≠ tok' →
  fst (handleValidateSession o tok' (snd (handleLogout tok w)))
  = fst (handleValidateSession o tok' w).
Proof.
  intros Hne. apply handleValidateSession_getSession.
  rewrite !getSession_rows, sessionRows_logout.
  apply getSessionLoop_removeFirst. exact Hne.
Qed.

Lemma logout_keeps_other_sessions_witness :
  fst (handleValidateSession o0 (VStr "tok_1000")
         (snd (handleLogout (VStr "old_1") wBoth)))
  = fst (handleValidateSession o0 (VStr "tok_1000") wBoth).
Proof. apply logout_keeps_other_sessions. discriminate. Defined.

Lemma handleLogout_absent (tok : value) (w : world) :
  (∀ s, s ∈ sessionRows w → s_token s ≠ tok) →
  snd (handleLogout tok w) = w.
Proof.
  intros Habs. destruct w as [us [[|h t]|]]; unfold handleLogout; simpl;
    [reflexivity | | reflexivity].
  rewrite logoutSheet_spec.
  rewrite (removeFirst_absent tok t); [reflexivity | exact Habs].
Qed.

(** X5. Logout is idempotent when at most one session row carries the token:
    a second logout of the same token changes nothing. *)
Theorem logout_twice (tok : value) (w : world) :
  (tokenCount tok (sessionRows w) ≤ 1)%nat →
  handleLogout tok (snd (handleLogout tok w))
  = (createResponse true "Logged out successfully" None,
     snd (handleLogout tok w)).
Proof.
  intros Hc.
  rewrite (surjective_pairing (handleLogout tok (snd (handleLogout tok w)))).
  f_equal. apply handleLogout_absent.
  rewrite sessionRows_logout. apply removeFirst_unique. exact Hc.
Qed.

Lemma logout_twice_witness :
  handleLogout (VStr "tok_1000") (snd (handleLogout (VStr "tok_1000") wLive))
  = (createResponse true "Logged out successfully" None,
     snd (handleLogout (VStr "tok_1000") wLive)).
Proof. apply logout_twice. vm_compute. lia. Defined.

(** ** Expiry after login *)

(** X6. A token returned by login stops validating once more than 24 hours
    have passed since the session was stored, provided the generated token
    was not already the token of a stored session. *)
Theorem login_then_validate_after_expiry (o o' : oracle) (usr pwd : value)
    (w w' : world) (r : response) (tok : string) :
  handleLogin o usr pwd w = (r, w') →
  success r = true →
  r_sessionToken r = Some tok →
  (∀ s, s ∈ sessionRows w → s_token s ≠ VStr tok) →
  (o_now o + SESSION_TIMEOUT < o_checkNow o')%Z →
  fst (handleValidateSession o' (VStr tok) w')
  = createResponse false "Invalid or expired session" None.
Proof.
  intros Hlogin Hok Htok Hfresh Hlate.
  rewrite handleLogin_unfold, loginLoop_firstMatch in Hlogin.
  destruct (firstMatch usr pwd (dataRows blankU (usersOf o w))) as [row|].
  2: { injection Hlogin as <- _. discriminate Hok. }
  injection Hlogin as <- <-. simpl in Htok. injection Htok as <-.
  set (tk := generateSessionToken o) in *.
  set (u := userOfRow o row).
  set (w1 := match usersSheet w with Some _ => w | None => withUsers o w end).
  assert (Hs1 : sessionsSheet w1 = sessionsSheet w)
    by (unfold w1; destruct (usersSheet w); reflexivity).
  assert (Hexp : isSessionExpired (newSessionRow tk u (o_now o))
                   (o_checkNow o') = true).
  { unfold isSessionExpired, newSessionRow, expiredAt. simpl.
    apply Z.ltb_lt. exact Hlate. }
  unfold handleValidateSession, getSession.
  rewrite storeSession_sheet. unfold baseSheet. rewrite Hs1.
  unfold sessionRows in Hfresh.
  destruct (sessionsSheet w) as [[|h t]|].
  - reflexivity.
  - simpl app. rewrite cleanupSheet_spec. cbn [getValues].
    rewrite skipn_cons, drop_0, filter_app, getSessionLoop_app_fresh.
    2: { intros s Hs. apply list_elem_of_filter in Hs as [_ Hs]. auto. }
    destruct (decide (survives (o_sweepNow o) (newSessionRow tk u (o_now o))))
      as [Hsv|Hsv].
    + rewrite filter_cons_True by exact Hsv. cbn [filter list_filter].
      cbn [getSessionLoop newSessionRow s_token strict_eq].
      rewrite String.eqb_refl. fold (newSessionRow tk u (o_now o)).
      rewrite Hexp. reflexivity.
    + rewrite filter_cons_False by exact Hsv. reflexivity.
  - simpl app. rewrite cleanupSheet_spec. cbn [getValues].
    rewrite skipn_cons, drop_0.
    destruct (decide (survives (o_sweepNow o) (newSessionRow tk u (o_now o))))
      as [Hsv|Hsv].
    + rewrite filter_cons_True by exact Hsv. cbn [filter list_filter].
      cbn [getSessionLoop newSessionRow s_token strict_eq].
      rewrite String.eqb_refl. fold (newSessionRow tk u (o_now o)).
      rewrite Hexp. reflexivity.
    + rewrite filter_cons_False by exact Hsv. reflexivity.
Qed.

Lemma login_then_validate_after_expiry_witness :
  fst (handleValidateSession (mkOracle "" "" "" "" 0 "" 0 0 86401001 "")
         (VStr "tok_1000")
         (snd (handleLogin o0 (VStr "alice") (VStr "pw") w0)))
  = createResponse false "Invalid or expired session" None.
Proof.
  apply (login_then_validate_after_expiry o0
           (mkOracle "" "" "" "" 0 "" 0 0 86401001 "")
           (VStr "alice") (VStr "pw") w0
           (snd (handleLogin o0 (VStr "alice") (VStr "pw") w0))
           (fst (handleLogin o0 (VStr "alice") (VStr "pw") w0))).
  - reflexivity.
  - reflexivity.
  - reflexivity.
  - intros s Hs. inversion Hs.
  - unfold SESSION_TIMEOUT. simpl. lia.
Defined.

(** ** What a request can write *)

Lemma handleLogin_users (o : oracle) (usr pwd : value) (w : world) :
  usersSheet (snd (handleLogin o usr pwd w)) = Some (usersOf o w).
Proof.
  rewrite handleLogin_unfold, loginLoop_firstMatch.
  destruct (firstMatch usr pwd (dataRows blankU (usersOf o w))) as [row|];
    cbn [snd].
  - rewrite storeSession_users. unfold withUsers, usersOf.
    destruct (usersSheet w) eqn:Hu; [exact Hu | reflexivity].
  - unfold withUsers, usersOf. destruct (usersSheet w) eqn:Hu;
      [exact Hu | reflexivity].
Qed.

(** X7. No request ever writes to an existing Users sheet: whatever the
    request, the Users sheet after it is the one before it. (A login on a
    spreadsheet without Users sheet creates the seeded one.) *)
Theorem doPost_keeps_users (o : oracle) (e : postBody) (w : world)
    (us : list urow) :
  usersSheet w = Some us →
  usersSheet (snd (doPost o e w)) = Some us.
Proof.
  intros Hu. destruct e as [error|data]; [exact Hu|]. unfold doPost.
  destruct (strict_eq (q_action data) (VStr "login")).
  { rewrite handleLogin_users. unfold usersOf. rewrite Hu. reflexivity. }
  destruct (strict_eq (q_action data) (VStr "logout")).
  { unfold handleLogout. cbn [snd].
    destruct (sessionsSheet w); exact Hu. }
  destruct (strict_eq (q_action data) (VStr "validateSession")).
  { rewrite handleValidateSession_world. exact Hu. }
  exact Hu.
Qed.

Lemma doPost_keeps_users_witness :
  usersSheet
    (snd (doPost o0
            (Parsed (mkRequest (VStr "login") (VStr "alice") (VStr "pw")
                               VUndef)) w0))
  = Some [usersHeader; aliceRow].
Proof. apply doPost_keeps_users. reflexivity. Defined.

(** X8. No request ever deletes or rewrites row 1 of the Sessions sheet: once
    the sheet has a first row, it has the same first row after any
    request. *)
Theorem doPost_keeps_first_session_row (o : oracle) (e : postBody)
    (w : world) (h : srow) (t : list srow) :
  sessionsSheet w = Some (h :: t) →
  ∃ t', sessionsSheet (snd (doPost o e w)) = Some (h :: t').
Proof.
  intros Hw. destruct e as [error|data]; [exists t; exact Hw|]. unfold doPost.
  destruct (strict_eq (q_action data) (VStr "login")).
  { rewrite handleLogin_unfold, loginLoop_firstMatch.
    assert (Hs : sessionsSheet
                   (match usersSheet w with
                    | Some _ => w | None => withUsers o w end)
                 = Some (h :: t)) by (destruct (usersSheet w); exact Hw).
    destruct (firstMatch _ _ _) as [row|]; cbn [snd].
    - rewrite storeSession_sheet. unfold baseSheet. rewrite Hs. simpl app.
      rewrite cleanupSheet_spec. eexists. reflexivity.
    - exists t. exact Hs. }
  destruct (strict_eq (q_action data) (VStr "logout")).
  { unfold handleLogout. cbn [snd]. rewrite Hw. cbn [sessionsSheet].
    rewrite logoutSheet_spec. eexists. reflexivity. }
  destruct (strict_eq (q_action data) (VStr "validateSession")).
  { rewrite handleValidateSession_world. exists t. exact Hw. }
  exists t. exact Hw.
Qed.

Lemma doPost_keeps_first_session_row_witness :
  ∃ t', sessionsSheet
          (snd (doPost o0
                  (Parsed (mkRequest (VStr "logout") VUndef VUndef
                                     (VStr "tok_1000"))) wLive))
        = Some (sessionsHeader :: t').
Proof.
  apply (doPost_keeps_first_session_row o0 _ wLive sessionsHeader [liveRow]).
  reflexivity.
Defined.

(** * Admin functions *)

Lemma firstMatch_app (usr pwd : value) (l1 l2 : list urow) :
  firstMatch usr pwd (l1 ++ l2)
  = match firstMatch usr pwd l1 with
    | Some row => Some row
    | None => firstMatch usr pwd l2
    end.
Proof.
  induction l1 as [|x l1 IH]; simpl; [reflexivity|].
  destruct (strict_eq (u_username x) usr && strict_eq (u_password x) pwd);
    [reflexivity | exact IH].
Qed.

(** The answer of [handleLogin] is decided by the first matching row. *)
Lemma handleLogin_response (o : oracle) (usr pwd : value) (w : world) :
  fst (handleLogin o usr pwd w)
  = match firstMatch usr pwd (dataRows blankU (usersOf o w)) with
    | Some row =>
        createResponse true "Login successful"
          (Some (mkExtra (Some (JObject (userOfRow o row)))
                         (Some (generateSessionToken o))))
    | None => createResponse false "Invalid username or password" None
    end.
Proof.
  rewrite handleLogin_unfold, loginLoop_firstMatch.
  destruct (firstMatch usr pwd (dataRows blankU (usersOf o w))); reflexivity.
Qed.

Lemma addUser_rows (o : oracle) (expForm : Z → string) (userId : string)
    (usr pwd mail rol chapter : value) (w : world) (h : urow)
    (t : list urow) :
  usersSheet w = Some (h :: t) →
  dataRows blankU (usersOf o (fst (addUser expForm userId usr pwd mail rol chapter w)))
  = t ++ [mkURow usr pwd mail rol (VStr userId) (defaultChapterId chapter)].
Proof.
  intros Hu. unfold addUser, usersOf. rewrite Hu. reflexivity.
Qed.

(** X9. A user added to a Users sheet that has its header row can log in with
    the credentials given to addUser. When no earlier row carries the same
    credentials, the login answers with exactly the added user: the
    generated id, the given email and role, and the given chapter id (null
    when it was omitted or empty). *)
Theorem addUser_then_login (o : oracle) (expForm : Z → string)
    (userId : string)
    (usr pwd mail rol chapter : value) (w : world) (h : urow)
    (t : list urow) :
  usersSheet w = Some (h :: t) →
  success (fst (handleLogin o usr pwd
                  (fst (addUser expForm userId usr pwd mail rol chapter w)))) = true ∧
  ((∀ r, r ∈ t → ¬ credentialsMatch usr pwd r) →
   userId ≠ ""%string →
   r_user (fst (handleLogin o usr pwd
                  (fst (addUser expForm userId usr pwd mail rol chapter w))))
   = Some (JObject (mkUser (VStr userId) usr mail rol
                           (js_or (defaultChapterId chapter) VNull))) ∧
   r_sessionToken
     (fst (handleLogin o usr pwd
             (fst (addUser expForm userId usr pwd mail rol chapter w))))
   = Some (generateSessionToken o) ∧
   message (fst (handleLogin o usr pwd
                   (fst (addUser expForm userId usr pwd mail rol chapter w))))
   = "Login successful"%string).
Proof.
  intros Hu.
  assert (Hnew : credentialsMatch usr pwd
                   (mkURow usr pwd mail rol (VStr userId)
                           (defaultChapterId chapter)))
    by (split; reflexivity).
  rewrite handleLogin_response, (addUser_rows o _ _ _ _ _ _ _ w h t Hu). split.
  - rewrite firstMatch_app. destruct (firstMatch usr pwd t); [reflexivity|].
    simpl. apply credentials_test in Hnew. simpl in Hnew. rewrite Hnew.
    reflexivity.
  - intros Hpre Hid.
    rewrite (firstMatch_split usr pwd t _ [] Hpre Hnew).
    unfold userOfRow, js_or at 1. simpl.
    apply String.eqb_neq in Hid. rewrite Hid. repeat split.
Qed.

Lemma addUser_then_login_witness :
  success (fst (handleLogin o0 (VStr "bob") (VStr "s3cret")
                  (fst (addUser pretty "id-b" (VStr "bob") (VStr "s3cret")
                          (VStr "b@x.org") (VStr "editor") VUndef w0))))
  = true ∧
  r_user (fst (handleLogin o0 (VStr "bob") (VStr "s3cret")
                 (fst (addUser pretty "id-b" (VStr "bob") (VStr "s3cret")
                         (VStr "b@x.org") (VStr "editor") VUndef w0))))
  = Some (JObject (mkUser (VStr "id-b") (VStr "bob") (VStr "b@x.org")
                          (VStr "editor") VNull)) ∧
  r_sessionToken
    (fst (handleLogin o0 (VStr "bob") (VStr "s3cret")
            (fst (addUser pretty "id-b" (VStr "bob") (VStr "s3cret")
                    (VStr "b@x.org") (VStr "editor") VUndef w0))))
  = Some "tok_1000"%string ∧
  message (fst (handleLogin o0 (VStr "bob") (VStr "s3cret")
                  (fst (addUser pretty "id-b" (VStr "bob") (VStr "s3cret")
                          (VStr "b@x.org") (VStr "editor") VUndef w0))))
  = "Login successful"%string.
Proof.
  destruct (addUser_then_login o0 pretty "id-b" (VStr "bob") (VStr "s3cret")
              (VStr "b@x.org") (VStr "editor") VUndef w0 usersHeader
              [aliceRow] eq_refl) as [H1 H2].
  split; [exact H1|]. apply H2.
  - intros r Hr [Hn _]. apply list_elem_of_singleton in Hr as ->.
    discriminate Hn.
  - discriminate.
Defined.

(** X10. addUser can never change what existing credentials log in as: a login
    that succeeded before the call gets the same answer after it, even when
    the added row repeats its username and password (the first row wins). *)
Theorem addUser_keeps_existing_logins (o : oracle) (expForm : Z → string)
    (userId : string)
    (usr pwd mail rol chapter usr' pwd' : value) (w : world) :
  success (fst (handleLogin o usr' pwd' w)) = true →
  fst (handleLogin o usr' pwd'
         (fst (addUser expForm userId usr pwd mail rol chapter w)))
  = fst (handleLogin o usr' pwd' w).
Proof.
  rewrite !handleLogin_response. intros Hok.
  destruct (usersSheet w) as [[|h t]|] eqn:Hu.
  - unfold usersOf in Hok. rewrite Hu in Hok. discriminate Hok.
  - rewrite (addUser_rows o _ _ _ _ _ _ _ w h t Hu), firstMatch_app.
    unfold usersOf in *. rewrite Hu in *. rewrite dataRows_cons in *.
    destruct (firstMatch usr' pwd' t); [reflexivity | discriminate Hok].
  - unfold addUser. rewrite Hu. reflexivity.
Qed.

Lemma addUser_keeps_existing_logins_witness :
  fst (handleLogin o0 (VStr "alice") (VStr "pw")
         (fst (addUser pretty "id-2" (VStr "alice") (VStr "pw") (VStr "evil@x.org")
                 (VStr "admin") VUndef w0)))
  = fst (handleLogin o0 (VStr "alice") (VStr "pw") w0).
Proof. apply addUser_keeps_existing_logins. reflexivity. Defined.

(** X11. addUser needs an initialised Users sheet: without the sheet it changes
    nothing, and on a sheet without any row the added row becomes row 1,
    which login skips as the header, so the new credentials do not log
    in. *)
Theorem addUser_uninitialised (o : oracle) (expForm : Z → string)
    (userId : string)
    (usr pwd mail rol chapter : value) (w : world) :
  (usersSheet w = None →
   addUser expForm userId usr pwd mail rol chapter w
   = (w, ["Users sheet not found. Please initialize the system first."])) ∧
  (usersSheet w = Some [] →
   fst (handleLogin o usr pwd
          (fst (addUser expForm userId usr pwd mail rol chapter w)))
   = createResponse false "Invalid username or password" None).
Proof.
  split; intros Hu.
  - unfold addUser. rewrite Hu. reflexivity.
  - rewrite handleLogin_response. unfold addUser, usersOf. rewrite Hu.
    reflexivity.
Qed.

Lemma addUser_uninitialised_witness :
  fst (handleLogin o0 (VStr "bob") (VStr "s3cret")
         (fst (addUser pretty "id-b" (VStr "bob") (VStr "s3cret") (VStr "b@x.org")
                 (VStr "editor") VUndef (mkWorld (Some []) None))))
  = createResponse false "Invalid username or password" None.
Proof.
  apply (proj2 (addUser_uninitialised o0 pretty "id-b" (VStr "bob")
                  (VStr "s3cret")
                  (VStr "b@x.org") (VStr "editor") VUndef
                  (mkWorld (Some []) None))).
  reflexivity.
Defined.

Lemma initializeSystem_sheets (o : oracle) (w : world) :
  fst (initializeSystem o w)
  = mkWorld (Some (usersOf o w)) (Some (baseSheet w)).
Proof.
  unfold initializeSystem, usersOf, baseSheet.
  destruct (usersSheet w), (sessionsSheet w); reflexivity.
Qed.

(** X12. initializeSystem leaves both sheets present, keeps every sheet that
    already exists as it is, and is idempotent: a second run changes
    nothing and reports both sheets as existing. *)
Theorem initializeSystem_idempotent (o o' : oracle) (w : world) :
  (∃ us ss, fst (initializeSystem o w) = mkWorld (Some us) (Some ss) ∧
            (∀ us0, usersSheet w = Some us0 → us = us0) ∧
            (∀ ss0, sessionsSheet w = Some ss0 → ss = ss0) ∧
            (sessionsSheet w = None → ss = [sessionsHeader])) ∧
  initializeSystem o' (fst (initializeSystem o w))
  = (fst (initializeSystem o w),
     ["Users sheet already exists"; "Sessions sheet already exists";
      "System initialization complete!"]).
Proof.
  rewrite initializeSystem_sheets. split; [|reflexivity].
  exists (usersOf o w), (baseSheet w). split; [reflexivity|].
  unfold usersOf, baseSheet. repeat split.
  - intros us0 ->. reflexivity.
  - intros ss0 ->. reflexivity.
  - intros ->. reflexivity.
Qed.

(** X13. Initialisation is optional: whatever the request, doPost gives the
    same answer on the initialised spreadsheet as on the original one,
    because login creates the same Users sheet and storeSession the same
    Sessions sheet on demand. *)
Theorem initializeSystem_transparent (o : oracle) (e : postBody)
    (w : world) :
  fst (doPost o e (fst (initializeSystem o w))) = fst (doPost o e w).
Proof.
  rewrite initializeSystem_sheets.
  destruct e as [error|data]; [reflexivity|]. unfold doPost.
  destruct (strict_eq (q_action data) (VStr "login")).
  { rewrite !handleLogin_response. reflexivity. }
  destruct (strict_eq (q_action data) (VStr "logout")); [reflexivity|].
  destruct (strict_eq (q_action data) (VStr "validateSession"));
    [|reflexivity].
  apply handleValidateSession_getSession.
  rewrite !getSession_rows. unfold sessionRows, baseSheet. simpl.
  destruct (sessionsSheet w); reflexivity.
Qed.

(** ** Listing users *)

Lemma listUsersLoop_app (expForm : Z → string) (l1 l2 : list urow) :
  listUsersLoop expForm (l1 ++ l2)
  = listUsersLoop expForm l1 ++ listUsersLoop expForm l2.
Proof.
  induction l1 as [|x l1 IH]; simpl; [reflexivity | now rewrite IH].
Qed.

Lemma listUsersLoop_elem (expForm : Z → string) (row : urow)
    (rows : list urow) :
  row ∈ rows →
  ("- " ++ toStr expForm (u_username row) ++ " (" ++
   toStr expForm (u_role row) ++ ")")%string
    ∈ listUsersLoop expForm rows.
Proof.
  induction rows as [|x rows IH]; intros H; [inversion H|].
  apply elem_of_cons in H as [-> | H]; simpl; [left | right; auto].
Qed.

Lemma firstMatch_elem (usr pwd : value) (rows : list urow) (row : urow) :
  firstMatch usr pwd rows = Some row →
  row ∈ rows ∧ credentialsMatch usr pwd row.
Proof.
  induction rows as [|x rows IH]; simpl; [discriminate|].
  destruct (strict_eq (u_username x) usr && strict_eq (u_password x) pwd)
    eqn:Hx.
  - intros [= <-]. split; [left | apply credentials_test; exact Hx].
  - intros H. destruct (IH H) as [Hin Hm]. split; [right|]; assumption.
Qed.

(** X14. listUsers shows every account that can log in: when the Users sheet
    exists and a login with a string username succeeds, listUsers logs a
    line '- username (role)' for that username, with the role the login
    returned. *)
Theorem login_user_is_listed (o : oracle) (expForm : Z → string)
    (name : string) (pwd : value) (w : world) (sh : list urow) (u : user) :
  usersSheet w = Some sh →
  r_user (fst (handleLogin o (VStr name) pwd w)) = Some (JObject u) →
  ("- " ++ name ++ " (" ++ toStr expForm (role u) ++ ")")%string
    ∈ listUsers expForm w.
Proof.
  intros Hu Hlogin. rewrite handleLogin_response in Hlogin.
  unfold usersOf in Hlogin. rewrite Hu in Hlogin.
  destruct (firstMatch (VStr name) pwd (dataRows blankU sh)) as [row|] eqn:Hf;
    [|discriminate Hlogin].
  injection Hlogin as <-.
  destruct (firstMatch_elem _ _ _ _ Hf) as [Hin [Hname _]].
  unfold listUsers. rewrite Hu. right.
  pose proof (listUsersLoop_elem expForm row _ Hin) as H.
  rewrite Hname in H. exact H.
Qed.

Lemma login_user_is_listed_witness :
  "- alice (editor)"%string ∈ listUsers pretty w0.
Proof.
  apply (login_user_is_listed o0 pretty "alice" (VStr "pw") w0
           [usersHeader; aliceRow] alice); reflexivity.
Defined.

(** X15. After addUser on a Users sheet that has its header row, listUsers logs
    the same lines as before followed by one line for the new user. *)
Theorem addUser_then_listUsers (expForm : Z → string) (userId : string)
    (usr pwd mail rol chapter : value) (w : world) (h : urow)
    (t : list urow) :
  usersSheet w = Some (h :: t) →
  listUsers expForm (fst (addUser expForm userId usr pwd mail rol chapter w))
  = listUsers expForm w ++
    [("- " ++ toStr expForm usr ++ " (" ++ toStr expForm rol ++ ")")%string].
Proof.
  intros Hu. unfold listUsers, addUser. rewrite Hu. cbn [fst usersSheet].
  unfold appendRow. simpl app. cbn [getValues].
  rewrite !skipn_cons, !drop_0, listUsersLoop_app. reflexivity.
Qed.

Lemma addUser_then_listUsers_witness :
  listUsers pretty (fst (addUser pretty "id-b" (VStr "bob") (VStr "s3cret") (VStr "b@x.org")
                    (VStr "editor") VUndef w0))
  = ["Users:"; "- alice (editor)"; "- bob (editor)"]%string.
Proof.
  apply (addUser_then_listUsers pretty "id-b" (VStr "bob") (VStr "s3cret")
           (VStr "b@x.org") (VStr "editor") VUndef w0 usersHeader [aliceRow]).
  reflexivity.
Defined.

(** * Session tokens *)

Lemma string_app_inj (a b s t : string) :
  String.length a = String.length b →
  (a ++ s)%string = (b ++ t)%string → a = b ∧ s = t.
Proof.
  revert b. induction a as [|c a IH]; intros [|d b] Hlen Heq;
    simpl in *; try discriminate.
  - split; [reflexivity | exact Heq].
  - injection Hlen as Hlen. injection Heq as -> Heq.
    destruct (IH b Hlen Heq) as [-> ->]. split; reflexivity.
Qed.

(** X16. Tokens are as distinct as what they are built from: two generated
    tokens whose UUID parts have the same length (as UUIDs do) are equal
    only if both the UUIDs and the millisecond timestamps are equal. *)
Theorem generateSessionToken_inj (o o' : oracle) :
  String.length (o_tokenUuid o) = String.length (o_tokenUuid o') →
  generateSessionToken o = generateSessionToken o' →
  o_tokenUuid o = o_tokenUuid o' ∧ o_tokenTime o = o_tokenTime o'.
Proof.
  unfold generateSessionToken. intros Hlen Heq.
  destruct (string_app_inj _ _ _ _ Hlen Heq) as [Hu Ht].
  split; [exact Hu|]. injection Ht as Ht. apply (inj pretty). exact Ht.
Qed.

Lemma generateSessionToken_inj_witness :
  o_tokenUuid o0 = o_tokenUuid (mkOracle "a" "b" "c" "tok" 1000 "d" 7 8 9 "") ∧
  o_tokenTime o0 = o_tokenTime (mkOracle "a" "b" "c" "tok" 1000 "d" 7 8 9 "").
Proof. apply generateSessionToken_inj; reflexivity. Defined.

(** * User Data cells that hold other JSON *)

(** A cell holding the JSON text [null] parses, so the session validates
    and the response carries [null] under its [user] key. *)
Example validate_null_user_data :
  success (fst (handleValidateSession o0 (VStr "t_2")
                  (mkWorld None
                     (Some [sessionsHeader;
                            mkSRow (VStr "t_2") (CellJson (JPrimitive VNull))
                                   (Some 0%Z) (Some 5000%Z)])))) = true ∧
  r_user (fst (handleValidateSession o0 (VStr "t_2")
                 (mkWorld None
                    (Some [sessionsHeader;
                           mkSRow (VStr "t_2") (CellJson (JPrimitive VNull))
                                  (Some 0%Z) (Some 5000%Z)]))))
  = Some (JPrimitive VNull).
Proof. split; reflexivity. Qed.

(** A cell that is not JSON makes validation fail with the text of the
    caught exception. *)
Example validate_unparsable_user_data :
  fst (handleValidateSession o0 (VStr "t_1") wGarbled)
  = mkResponse false
      "Validation error: SyntaxError: Unexpected end of JSON input"
      None None.
Proof. reflexivity. Qed.
